(** * clickhouse-driver: the client session driver ([client.py])

    A shallow embedding of [QueryResult], [ProgressQueryResult] and [Client]
    and the properties of the packet stream, the result accumulators and the
    insert pipeline.

    Python objects become records, methods become functions over them, and
    every call on [self.connection] runs in a state-and-exception monad over
    the connection: the state holds what the transport will deliver and the
    calls made on it so far. *)

From Stdlib Require Import ZArith Lia.
From stdpp Require Import base list strings.

(** ** Values, blocks and packets *)

(** A Python value held in a row or passed as [params]. *)
Inductive Value :=
| VNone
| VInt (z : Z)
| VStr (s : string).

Definition Row := list Value.
Definition Column := list Value.

(** A [(column_name, column_type)] pair. *)
Definition ColumnSpec := (string * string)%type.

(** Modelled from the spec: the [Block] class ([block.py] is not part of the
    sources). A block is a rectangular batch: its [columns_with_types] and
    its rows, "retrievable as row-major or column-major views". The rows are
    kept row-major; the column view is their transposition. *)
Record Block := mkBlock {
  blk_columns_with_types : list ColumnSpec;
  blk_data : list Row
}.

(** [list(zip( *m ))]: the transposition of a list of lists. *)
Fixpoint transpose {A} (m : list (list A)) : list (list A) :=
  match m with
  | [] => []
  | r :: m' =>
      match m' with
      | [] => map (fun x => [x]) r
      | _ :: _ => zip_with cons r (transpose m')
      end
  end.

(** [block.rows]: the number of rows. *)
Definition blk_rows (b : Block) : nat := length (blk_data b).
(** [block.get_rows()] *)
Definition get_rows (b : Block) : list Row := blk_data b.
(** [block.get_columns()] *)
Definition get_columns (b : Block) : list Column := transpose (blk_data b).

(** [Block()]: no columns, no rows. *)
Definition Block_empty : Block := mkBlock [] [].

(** Modelled from the spec: [ServerPacketTypes] ([protocol.py] is not part of
    the sources). The six kinds [client.py] names, and the kinds it does not
    (hello, pong, profile info, ...), which the spec calls [Other]. *)
Inductive OtherPacketType := HELLO | PONG | PROFILE_INFO | TABLE_COLUMNS.

Inductive ServerPacketTypes :=
| DATA | EXCEPTION | PROGRESS | END_OF_STREAM | TOTALS | EXTREMES
| OTHER (k : OtherPacketType).

Inductive PyException :=
| ServerException (code : Z) (message : string)
| NetworkError (message : string)
| EOFError
| ValueError (message : string)
| TypeError (message : string)
| KeyError (message : string)
| IndexError (message : string)
| UnexpectedPacketFromServerError (expected : string) (received : ServerPacketTypes)
| RuntimeError (message : string).

(** Modelled from the spec: the packet the connection hands out (its class is
    in [connection.py], not part of the sources); section 3 of the spec gives
    it as a tagged union. *)
Inductive Packet :=
| PktData (b : Block)
| PktProgress (rows bytes total_rows : Z)
| PktTotals (b : Block)
| PktExtremes (b : Block)
| PktEndOfStream
| PktException (e : PyException)
| PktOther (k : OtherPacketType).

(** [packet.type] *)
Definition packet_type (p : Packet) : ServerPacketTypes :=
  match p with
  | PktData _ => DATA
  | PktProgress _ _ _ => PROGRESS
  | PktTotals _ => TOTALS
  | PktExtremes _ => EXTREMES
  | PktEndOfStream => END_OF_STREAM
  | PktException _ => EXCEPTION
  | PktOther k => OTHER k
  end.

(** [getattr(packet, 'block', None)] *)
Definition packet_block (p : Packet) : option Block :=
  match p with
  | PktData b | PktTotals b | PktExtremes b => Some b
  | _ => None
  end.

(** [packet.exception] *)
Definition packet_exception (p : Packet) : option PyException :=
  match p with
  | PktException e => Some e
  | _ => None
  end.

(** The counters of one progress packet. *)
Record Progress := mkProgress {
  pg_rows : Z;
  pg_bytes : Z;
  pg_total_rows : Z
}.

(** [getattr(packet, 'progress', None)] *)
Definition packet_progress (p : Packet) : option Progress :=
  match p with
  | PktProgress r b t => Some (mkProgress r b t)
  | _ => None
  end.

(** ** The connection *)

Definition Settings := list (string * string).
Definition ExternalTables := list string.

(** A call made on [self.connection]. *)
Inductive Event :=
| EvForceConnect
| EvSendQuery (query : string) (query_id : option string) (settings : Settings)
| EvSendExternalTables (tables : option ExternalTables) (types_check : bool)
| EvSendData (b : Block)
| EvSendCancel
| EvReceivePacket
| EvDisconnect.

(** What one blocking read delivers: a transport error or a packet. *)
Definition Reply := (PyException + Packet)%type.

(** Modelled from the spec: the [Connection] ([connection.py] is not part of
    the sources), as section 6 of the spec describes it. [inbox] holds what
    the successive reads will deliver; a read with nothing left to deliver
    fails with a transport error. [faults] is consumed by the calls that
    write to the transport, one entry a call: [Some e] makes the call raise
    [e]. [trace] records every call, oldest first. *)
Record Connection := mkConnection {
  connected : bool;
  context_settings : Settings;
  insert_block_size : nat;
  inbox : list Reply;
  faults : list (option PyException);
  trace : list Event
}.

Definition set_connected (v : bool) (c : Connection) : Connection :=
  mkConnection v (context_settings c) (insert_block_size c) (inbox c) (faults c) (trace c).
Definition set_context_settings (v : Settings) (c : Connection) : Connection :=
  mkConnection (connected c) v (insert_block_size c) (inbox c) (faults c) (trace c).
Definition set_inbox (v : list Reply) (c : Connection) : Connection :=
  mkConnection (connected c) (context_settings c) (insert_block_size c) v (faults c) (trace c).
Definition set_faults (v : list (option PyException)) (c : Connection) : Connection :=
  mkConnection (connected c) (context_settings c) (insert_block_size c) (inbox c) v (trace c).
Definition log (ev : Event) (c : Connection) : Connection :=
  mkConnection (connected c) (context_settings c) (insert_block_size c) (inbox c) (faults c)
               (trace c ++ [ev]).

(** ** The monad of calls on the connection *)

Definition M (A : Type) : Type := Connection -> (PyException + A) * Connection.

Definition ret {A} (a : A) : M A := fun c => (inr a, c).
Definition raise {A} (e : PyException) : M A := fun c => (inl e, c).
Definition bind {A B} (m : M A) (k : A -> M B) : M B :=
  fun c =>
    match m c with
    | (inl e, c') => (inl e, c')
    | (inr a, c') => k a c'
    end.
(** [try: m  except Exception as e: h e] *)
Definition try_except {A} (m : M A) (h : PyException -> M A) : M A :=
  fun c =>
    match m c with
    | (inl e, c') => h e c'
    | (inr a, c') => (inr a, c')
    end.
(** A computation that does not touch the connection. *)
Definition lift {A} (r : PyException + A) : M A := fun c => (r, c).

Notation "x <~ m ;; k" := (bind m (fun x => k))
  (at level 100, m at next level, right associativity).
Notation "m ;;; k" := (bind m (fun _ => k))
  (at level 100, right associativity).

(** One step of a [while True:] loop: go round again, or leave with a result. *)
Inductive Step (S R : Type) :=
| Continue (s : S)
| Break (r : R).
Arguments Continue {S R} s.
Arguments Break {S R} r.

(** A loop that reads the connection. Every loop of [client.py] takes at
    least one reply from the transport each time round, so one more turn than
    there are replies is enough ([while_true_unfold] below). *)
Fixpoint repeat_until {S R} (fuel : nat) (body : S -> M (Step S R)) (s : S) : M R :=
  fun c =>
    match fuel with
    | O => (inl (RuntimeError "unreachable"), c)
    | Datatypes.S fuel' =>
        match body s c with
        | (inl e, c') => (inl e, c')
        | (inr (Break r), c') => (inr r, c')
        | (inr (Continue s'), c') => repeat_until fuel' body s' c'
        end
    end.

Definition while_true {S R} (body : S -> M (Step S R)) (s : S) : M R :=
  fun c => repeat_until (Datatypes.S (length (inbox c))) body s c.

(** A call that writes to the transport. *)
Definition transport_call (ev : Event) : M unit :=
  fun c =>
    let c := log ev c in
    match faults c with
    | [] => (inr tt, c)
    | None :: fs => (inr tt, set_faults fs c)
    | Some e :: fs => (inl e, set_faults fs c)
    end.

(** [connection.force_connect()] *)
Definition connection_force_connect : M unit :=
  transport_call EvForceConnect ;;; fun c => (inr tt, set_connected true c).
(** [connection.send_query(query, query_id=..., settings=...)] *)
Definition connection_send_query (query : string) (query_id : option string)
    (settings : Settings) : M unit :=
  transport_call (EvSendQuery query query_id settings).
(** [connection.send_external_tables(tables, types_check=...)] *)
Definition connection_send_external_tables (tables : option ExternalTables)
    (types_check : bool) : M unit :=
  transport_call (EvSendExternalTables tables types_check).
(** [connection.send_data(block)] *)
Definition connection_send_data (b : Block) : M unit :=
  transport_call (EvSendData b).
(** [connection.send_cancel()] *)
Definition connection_send_cancel : M unit :=
  transport_call EvSendCancel.
(** [connection.disconnect()]: "idempotent, always safe to call". *)
Definition connection_disconnect : M unit :=
  fun c => (inr tt, set_connected false (log EvDisconnect c)).
(** [connection.receive_packet()] *)
Definition connection_receive_packet : M Packet :=
  fun c =>
    let c := log EvReceivePacket c in
    match inbox c with
    | [] => (inl EOFError, c)
    | inl e :: rest => (inl e, set_inbox rest c)
    | inr p :: rest => (inr p, set_inbox rest c)
    end.

(** ** [QueryResult] *)

(** A Python generator object: suspended (not started, or stopped at a
    [yield]), or finished (it returned or raised). *)
Inductive Generator := GenSuspended | GenFinished.

Record QueryResult := mkQueryResult {
  qr_packet_generator : Generator;
  qr_with_column_types : bool;
  qr_data : list (list Value);
  qr_columns_with_types : list ColumnSpec;
  qr_columnar : bool
}.

Definition set_qr_packet_generator (g : Generator) (self : QueryResult) : QueryResult :=
  mkQueryResult g (qr_with_column_types self) (qr_data self)
                (qr_columns_with_types self) (qr_columnar self).
Definition set_qr_data (d : list (list Value)) (self : QueryResult) : QueryResult :=
  mkQueryResult (qr_packet_generator self) (qr_with_column_types self) d
                (qr_columns_with_types self) (qr_columnar self).
Definition set_qr_columns_with_types (cwt : list ColumnSpec) (self : QueryResult) : QueryResult :=
  mkQueryResult (qr_packet_generator self) (qr_with_column_types self) (qr_data self)
                cwt (qr_columnar self).

(** [ProgressQueryResult] extends [QueryResult] with the running totals. *)
Record ProgressQueryResult := mkProgressQueryResult {
  pqr_base : QueryResult;
  progress_totals : Progress
}.

(** What a method of the client hands back: [None], the data, the pair
    [(data, columns_with_types)], or the progress iterator. *)
Inductive Returned :=
| RetNone
| RetData (data : list (list Value))
| RetDataColumns (data : list (list Value)) (columns_with_types : list ColumnSpec)
| RetProgress (result : ProgressQueryResult).

(** [QueryResult.__init__] *)
Definition QueryResult_init (packet_generator : Generator)
    (with_column_types columnar : bool) : QueryResult :=
  mkQueryResult packet_generator with_column_types [] [] columnar.

(** Truth value of a Python list: non-empty. *)
Definition truthy {A} (l : list A) : bool :=
  match l with
  | [] => false
  | _ :: _ => true
  end.

(** [for i, column in enumerate(columns): self.data[i] += column], from index
    [i] on; [self.data[i]] raises [IndexError] out of range. *)
Fixpoint extend_columns (i : nat) (columns : list Column) (data : list (list Value))
    : PyException + list (list Value) :=
  match columns with
  | [] => inr data
  | column :: columns' =>
      match data !! i with
      | Some d => extend_columns (S i) columns' (<[i := d ++ column]> data)
      | None => inl (IndexError "list index out of range")
      end
  end.

(** [QueryResult.store] *)
Definition store (self : QueryResult) (packet : Packet) : PyException + QueryResult :=
  match packet_block packet with
  | None => inr self
  | Some block =>
      if negb (blk_rows block =? 0)%nat then
        if qr_columnar self then
          let columns := get_columns block in
          if truthy (qr_data self) then
            match extend_columns 0 columns (qr_data self) with
            | inl e => inl e
            | inr d => inr (set_qr_data d self)
            end
          else inr (set_qr_data (qr_data self ++ columns) self)
        else inr (set_qr_data (qr_data self ++ get_rows block) self)
      else if negb (truthy (qr_columns_with_types self)) then
        inr (set_qr_columns_with_types (blk_columns_with_types block) self)
      else inr self
  end.

(** ** The packet stream: [Client.receive_packet], [Client.packet_generator] *)

(** What [Client.receive_packet] returns: a packet, [False] or [True]. *)
Inductive Received :=
| RecvPacket (p : Packet)
| RecvFalse
| RecvTrue.

(** [Client.receive_packet] *)
Definition receive_packet : M Received :=
  packet <~ connection_receive_packet ;;
  match packet with
  | PktException e => raise e
  | PktProgress _ _ _ => ret (RecvPacket packet)
  | PktEndOfStream => ret RecvFalse
  | PktData _ => ret (RecvPacket packet)
  | PktTotals _ => ret (RecvPacket packet)
  | PktExtremes _ => ret (RecvPacket packet)
  | PktOther _ => ret RecvTrue
  end.

(** The body of the [while True:] of [Client.packet_generator]: [Break None]
    is the [break], [Break (Some packet)] the [yield packet]. *)
Definition packet_generator_body (_ : unit) : M (Step unit (option Packet)) :=
  try_except
    (packet <~ receive_packet ;;
     match packet with
     | RecvFalse => ret (Break None)
     | RecvTrue => ret (Continue tt)
     | RecvPacket p => ret (Break (Some p))
     end)
    (fun e => connection_disconnect ;;; raise e).

(** [next(packet_generator)]: [None] is [StopIteration]. A finished generator
    stops at once; a suspended one runs [Client.packet_generator] up to its
    next [yield], its [break] or the exception it raises. *)
Definition generator_next (g : Generator) : M (option Packet * Generator) :=
  match g with
  | GenFinished => ret (None, GenFinished)
  | GenSuspended =>
      r <~ while_true packet_generator_body tt ;;
      match r with
      | Some p => ret (Some p, GenSuspended)
      | None => ret (None, GenFinished)
      end
  end.

(** The [for packet in self.packet_generator: self.store(packet)] of
    [QueryResult.get_result]. *)
Definition get_result_body (self : QueryResult) : M (Step QueryResult QueryResult) :=
  r <~ generator_next (qr_packet_generator self) ;;
  let self := set_qr_packet_generator (snd r) self in
  match fst r with
  | None => ret (Break self)
  | Some packet =>
      self <~ lift (store self packet) ;;
      ret (Continue self)
  end.

Definition result_of (self : QueryResult) : Returned :=
  if qr_with_column_types self then
    RetDataColumns (qr_data self) (qr_columns_with_types self)
  else RetData (qr_data self).

(** [QueryResult.get_result]; the accumulator is handed back with the value. *)
Definition get_result (self : QueryResult) : M (Returned * QueryResult) :=
  self <~ while_true get_result_body self ;;
  ret (result_of self, self).

(** ** [ProgressQueryResult] *)

(** [ProgressQueryResult.__init__] *)
Definition ProgressQueryResult_init (packet_generator : Generator)
    (with_column_types columnar : bool) : ProgressQueryResult :=
  mkProgressQueryResult
    (QueryResult_init packet_generator with_column_types columnar)
    (mkProgress 0 0 0).

(** [ProgressQueryResult.store_progress] *)
Definition store_progress (self : ProgressQueryResult) (progress_packet : Progress)
    : (Z * Z) * ProgressQueryResult :=
  let totals := progress_totals self in
  let totals :=
    mkProgress (pg_rows totals + pg_rows progress_packet)
               (pg_bytes totals + pg_bytes progress_packet)
               (pg_total_rows totals + pg_total_rows progress_packet) in
  ((pg_rows totals, pg_total_rows totals), mkProgressQueryResult (pqr_base self) totals).

(** The body of the [while True:] of [ProgressQueryResult.next]; [None] is
    the [StopIteration] of the exhausted generator. *)
Definition next_body (self : ProgressQueryResult)
    : M (Step ProgressQueryResult (option (Z * Z) * ProgressQueryResult)) :=
  r <~ generator_next (qr_packet_generator (pqr_base self)) ;;
  let self := mkProgressQueryResult
                (set_qr_packet_generator (snd r) (pqr_base self)) (progress_totals self) in
  match fst r with
  | None => ret (Break (None, self))
  | Some packet =>
      match packet_progress packet with
      | Some progress_packet =>
          let out := store_progress self progress_packet in
          ret (Break (Some (fst out), snd out))
      | None =>
          base <~ lift (store (pqr_base self) packet) ;;
          ret (Continue (mkProgressQueryResult base (progress_totals self)))
      end
  end.

(** [ProgressQueryResult.next] *)
Definition next (self : ProgressQueryResult) : M (option (Z * Z) * ProgressQueryResult) :=
  while_true next_body self.

(** A [for item in self:] loop that keeps the items it is given: what a
    caller iterating over the result observes. *)
Definition iterate_body (st : list (Z * Z) * ProgressQueryResult)
    : M (Step (list (Z * Z) * ProgressQueryResult) (list (Z * Z) * ProgressQueryResult)) :=
  r <~ next (snd st) ;;
  match fst r with
  | Some item => ret (Continue (fst st ++ [item], snd r))
  | None => ret (Break (fst st, snd r))
  end.

Definition iterate (self : ProgressQueryResult) : M (list (Z * Z) * ProgressQueryResult) :=
  while_true iterate_body ([], self).

(** [ProgressQueryResult.get_result]: [for _ in self: pass], then the
    [get_result] of [QueryResult]. *)
Definition progress_get_result (self : ProgressQueryResult)
    : M (Returned * ProgressQueryResult) :=
  r <~ iterate self ;;
  let self := snd r in
  out <~ get_result (pqr_base self) ;;
  ret (fst out, mkProgressQueryResult (snd out) (progress_totals self)).

(** ** [Client] *)

(** The [params] argument of [execute]: absent, a dict, a list or a tuple of
    rows, or any other object (given by its [repr]). *)
Inductive Params :=
| ParamsNone
| ParamsDict (d : list (string * Value))
| ParamsList (rows : list Row)
| ParamsTuple (rows : list Row)
| ParamsOther (repr : string).

(** [isinstance(params, (list, tuple))] *)
Definition is_list_or_tuple (params : Params) : option (list Row) :=
  match params with
  | ParamsList rows | ParamsTuple rows => Some rows
  | _ => None
  end.

(** [d[k] = v] on a dict kept in insertion order. *)
Fixpoint dict_set (k v : string) (d : Settings) : Settings :=
  match d with
  | [] => [(k, v)]
  | (k', v') :: d' => if String.eqb k k' then (k, v) :: d' else (k', v') :: dict_set k v d'
  end.

(** [d.update(other)] *)
Definition dict_update (d other : Settings) : Settings :=
  fold_left (fun acc kv => dict_set (fst kv) (snd kv) acc) other d.

(** Modelled from the spec: [chunks] of [util/helpers.py], which is not part
    of the sources: it "partitions the caller's row sequence into consecutive
    chunks bounded by a configured maximum block size". With nothing left, or
    a size that is not positive, there is no further chunk. *)
Fixpoint chunks_from {A} (fuel : nat) (l : list A) (n : nat) : list (list A) :=
  match fuel with
  | O => []
  | S fuel' =>
      match take n l with
      | [] => []
      | chunk => chunk :: chunks_from fuel' (drop n l) n
      end
  end.

Definition chunks {A} (l : list A) (n : nat) : list (list A) :=
  chunks_from (length l) l n.

Record Client := mkClient {
  client_settings : Settings
}.

Section Client.

(** The collaborators that [client.py] imports and that are not part of the
    sources: [escape_params], the [%] that interpolates the escaped values
    into the query, and the validation that the [Block] constructor runs on
    the rows it is given (the error it raises, if any). *)
Variable escape_params : list (string * Value) -> PyException + list (string * string).
Variable percent_format : string -> list (string * string) -> PyException + string.
Variable Block_init_error : list ColumnSpec -> list Row -> bool -> option PyException.

(** [Block(columns_with_types, data, types_check=types_check)] *)
Definition Block_new (columns_with_types : list ColumnSpec) (data : list Row)
    (types_check : bool) : PyException + Block :=
  match Block_init_error columns_with_types data types_check with
  | Some e => inl e
  | None => inr (mkBlock columns_with_types data)
  end.

(** [Client.disconnect] *)
Definition disconnect : M unit := connection_disconnect.

(** [Client.substitute_params] *)
Definition substitute_params (query : string) (params : Params)
    : PyException + string :=
  match params with
  | ParamsDict d =>
      match escape_params d with
      | inl e => inl e
      | inr escaped => percent_format query escaped
      end
  | _ => inl (ValueError "Parameters are expected in dict form")
  end.

(** [Client.receive_result] *)
Definition receive_result (with_column_types progress columnar : bool) : M Returned :=
  let gen := GenSuspended in
  if progress then
    ret (RetProgress (ProgressQueryResult_init gen with_column_types columnar))
  else
    out <~ get_result (QueryResult_init gen with_column_types columnar) ;;
    ret (fst out).

(** [Client.receive_sample_block] *)
Definition receive_sample_block : M (option Block) :=
  packet <~ connection_receive_packet ;;
  match packet with
  | PktData _ => ret (packet_block packet)
  | PktException e => raise e
  | _ => raise (UnexpectedPacketFromServerError "Data" (packet_type packet))
  end.

(** The [for chunk in chunks(...)] of [Client.send_data]. *)
Fixpoint send_data_loop (sample_block : Block) (types_check : bool)
    (todo : list (list Row)) : M unit :=
  match todo with
  | [] => ret tt
  | chunk :: todo' =>
      block <~ lift (Block_new (blk_columns_with_types sample_block) chunk types_check) ;;
      connection_send_data block ;;;
      send_data_loop sample_block types_check todo'
  end.

(** [Client.send_data] *)
Definition send_data (sample_block : Block) (data : list Row) (types_check : bool)
    : M unit :=
  size <~ (fun c => (inr (insert_block_size c), c)) ;;
  send_data_loop sample_block types_check (chunks data size) ;;;
  connection_send_data Block_empty.

(** [Client.process_insert_query] *)
Definition process_insert_query (query_without_data : string) (data : list Row)
    (external_tables : option ExternalTables) (query_id : option string)
    (settings : Settings) (types_check : bool) : M Returned :=
  connection_send_query query_without_data query_id settings ;;;
  connection_send_external_tables external_tables types_check ;;;
  sample_block <~ receive_sample_block ;;
  match sample_block with
  | Some sample_block =>
      send_data sample_block data types_check ;;;
      packet <~ connection_receive_packet ;;
      match packet_exception packet with
      | Some e => raise e
      | None => ret RetNone
      end
  | None => ret RetNone
  end.

(** [Client.process_ordinary_query_with_progress] *)
Definition process_ordinary_query_with_progress (query : string)
    (params : Params) (with_column_types : bool)
    (external_tables : option ExternalTables) (query_id : option string)
    (settings : Settings) (types_check columnar : bool) : M Returned :=
  query <~ match params with
           | ParamsNone => ret query
           | _ => lift (substitute_params query params)
           end ;;
  connection_send_query query query_id settings ;;;
  connection_send_external_tables external_tables types_check ;;;
  receive_result with_column_types true columnar.

(** [Client.process_ordinary_query] *)
Definition process_ordinary_query (query : string)
    (params : Params) (with_column_types : bool)
    (external_tables : option ExternalTables) (query_id : option string)
    (settings : Settings) (types_check columnar : bool) : M Returned :=
  query <~ match params with
           | ParamsNone => ret query
           | _ => lift (substitute_params query params)
           end ;;
  connection_send_query query query_id settings ;;;
  connection_send_external_tables external_tables types_check ;;;
  receive_result with_column_types false columnar.

(** [self.connection.context.settings = query_settings] *)
Definition set_settings (query_settings : Settings) : M unit :=
  fun c => (inr tt, set_context_settings query_settings c).

(** [Client.execute] *)
Definition execute (self : Client) (query : string) (params : Params)
    (with_column_types : bool) (external_tables : option ExternalTables)
    (query_id : option string) (settings : option Settings)
    (types_check columnar : bool) : M Returned :=
  let query_settings := dict_update (client_settings self) (default [] settings) in
  set_settings query_settings ;;;
  connection_force_connect ;;;
  try_except
    (match is_list_or_tuple params with
     | Some data =>
         process_insert_query query data external_tables query_id
                              query_settings types_check
     | None =>
         process_ordinary_query query params with_column_types external_tables
                                query_id query_settings types_check columnar
     end)
    (fun e => connection_disconnect ;;; raise e).

(** [Client.execute_with_progress] *)
Definition execute_with_progress (self : Client) (query : string) (params : Params)
    (with_column_types : bool) (external_tables : option ExternalTables)
    (query_id : option string) (settings : option Settings)
    (types_check : bool) : M Returned :=
  let query_settings := dict_update (client_settings self) (default [] settings) in
  set_settings query_settings ;;;
  connection_force_connect ;;;
  try_except
    (process_ordinary_query_with_progress query params with_column_types
       external_tables query_id query_settings types_check false)
    (fun e => connection_disconnect ;;; raise e).

(** [Client.cancel] *)
Definition cancel (with_column_types : bool) : M Returned :=
  connection_send_cancel ;;;
  receive_result with_column_types false false.

End Client.

(** ** Streams, and what is expected of the code on them *)

(** Going round a loop again costs the transport at least one reply. *)
Definition consuming {S R} (body : S -> M (Step S R)) : Prop :=
  forall s c s' c',
    body s c = (inr (Continue s'), c') -> length (inbox c') < length (inbox c).

(** The connection after [n] more reads, with [rest] still to deliver. *)
Definition reads (n : nat) (rest : list Reply) (c : Connection) : Connection :=
  mkConnection (connected c) (context_settings c) (insert_block_size c) rest (faults c)
               (trace c ++ replicate n EvReceivePacket).

(** The connection after [connection.disconnect()]. *)
Definition disconnected (c : Connection) : Connection :=
  set_connected false (log EvDisconnect c).

(** A packet that does not end the stream. *)
Definition flowing (p : Packet) : bool :=
  match p with
  | PktException _ | PktEndOfStream => false
  | _ => true
  end.

(** A packet that the generator yields. *)
Definition surfaced (p : Packet) : bool :=
  match p with
  | PktData _ | PktProgress _ _ _ | PktTotals _ | PktExtremes _ => true
  | _ => false
  end.

Definition set_pqr_generator (g : Generator) (self : ProgressQueryResult)
    : ProgressQueryResult :=
  mkProgressQueryResult (set_qr_packet_generator g (pqr_base self)) (progress_totals self).

(** [list(packet_generator)]: the packets the generator yields until it
    stops, as a consumer sees them. *)
Definition drain_body (st : list Packet * Generator)
    : M (Step (list Packet * Generator) (list Packet * Generator)) :=
  r <~ generator_next (snd st) ;;
  match fst r with
  | Some p => ret (Continue (fst st ++ [p], snd r))
  | None => ret (Break (fst st, snd r))
  end.

Definition drain (g : Generator) : M (list Packet * Generator) :=
  while_true drain_body ([], g).

(** Merging the packets of a list into the accumulator, in order. *)
Fixpoint store_all (self : QueryResult) (ps : list Packet) : PyException + QueryResult :=
  match ps with
  | [] => inr self
  | p :: ps' =>
      match store self p with
      | inl e => inl e
      | inr self' => store_all self' ps'
      end
  end.

(** The progress packets of a stream, in arrival order. *)
Definition progress_packets (ps : list Packet) : list Progress :=
  omap packet_progress ps.

(** The sum of one counter over a list of progress packets. *)
Definition total (counter : Progress -> Z) (l : list Progress) : Z :=
  foldr (fun p acc => (counter p + acc)%Z) 0%Z l.

(** The pairs [(rows so far, total_rows so far)] after each progress packet. *)
Definition running_totals (l : list Progress) : list (Z * Z) :=
  map (fun i => (total pg_rows (take (S i) l), total pg_total_rows (take (S i) l)))
      (seq 0 (length l)).

(** The rows that the data-bearing packets of a stream carry, in order. *)
Definition rows_of (ps : list Packet) : list Row :=
  concat (map (fun p => from_option get_rows [] (packet_block p)) ps).

(** A data-bearing packet whose block has at least one row and [k] values in
    every row. *)
Definition carries_rows (k : nat) (p : Packet) : bool :=
  match packet_block p with
  | Some b => negb (blk_rows b =? 0)%nat && forallb (fun r => (length r =? k)%nat) (blk_data b)
  | None => false
  end.

(** A zero-row block that names at least one column. *)
Definition names_columns (b : Block) : bool :=
  (blk_rows b =? 0)%nat && truthy (blk_columns_with_types b).

(** The schema of the first zero-row block of a stream that names a column;
    empty when there is none. *)
Definition first_schema (ps : list Packet) : list ColumnSpec :=
  from_option blk_columns_with_types [] (find names_columns (omap packet_block ps)).

(** The number of [disconnect()] calls in a trace. *)
Definition disconnects (t : list Event) : nat :=
  length (List.filter (fun ev => match ev with EvDisconnect => true | _ => false end) t).

(** The blocks written with [send_data] in a trace, in order. *)
Definition sent_blocks (t : list Event) : list Block :=
  omap (fun ev => match ev with EvSendData b => Some b | _ => None end) t.

(** The next [n] calls that write to the transport do not fail. *)
Definition quiet (n : nat) (c : Connection) : bool :=
  forallb (fun f => match f with None => true | Some _ => false end) (take n (faults c)).

(** The connection after the calls [evs], all successful writes. *)
Definition wrote (evs : list Event) (c : Connection) : Connection :=
  mkConnection (connected c) (context_settings c) (insert_block_size c) (inbox c)
               (drop (length evs) (faults c)) (trace c ++ evs).

(** The replies of a transport that delivers the packets [ps]. *)
Definition replies (ps : list Packet) : list Reply := map inr ps.

(** The totals [t] with the counters of [p] added. *)
Definition add_progress (t p : Progress) : Progress :=
  mkProgress (pg_rows t + pg_rows p) (pg_bytes t + pg_bytes p)
             (pg_total_rows t + pg_total_rows p).

(** The pairs an iteration yields from the totals [t] on. *)
Fixpoint running_from (t : Progress) (l : list Progress) : list (Z * Z) :=
  match l with
  | [] => []
  | p :: l' =>
      let t' := add_progress t p in
      (pg_rows t', pg_total_rows t') :: running_from t' l'
  end.

(** The [Block] constructor accepts the rows. *)
Definition accepted (Block_init_error : list ColumnSpec -> list Row -> bool -> option PyException)
    (columns_with_types : list ColumnSpec) (types_check : bool) (chunk : list Row) : bool :=
  match Block_init_error columns_with_types chunk types_check with
  | None => true
  | Some _ => false
  end.

(** ** Sample data *)

Definition ex_columns : list ColumnSpec := [("id", "UInt32"); ("name", "String")].
Definition ex_header : Block := mkBlock ex_columns [].
Definition ex_block1 : Block :=
  mkBlock ex_columns [[VInt 1; VStr "a"]; [VInt 2; VStr "b"]].
Definition ex_block2 : Block := mkBlock ex_columns [[VInt 3; VStr "c"]].
Definition ex_error : PyException := ServerException 60 "Table default.t does not exist".

(** A server that answers a query with two blocks, progress in between. *)
Definition ex_packets : list Packet :=
  [PktData ex_header; PktProgress 2 20 3; PktData ex_block1; PktOther PROFILE_INFO;
   PktProgress 1 10 0; PktData ex_block2].

(** A connection with the given replies to deliver and no failing write. *)
Definition ex_connection (inbox : list Reply) : Connection :=
  mkConnection false [] 2 inbox [] [].

(** A connection whose first write fails. *)
Definition ex_connection_down : Connection :=
  mkConnection false [] 2 [] [Some (NetworkError "Connection refused")] [].

(** Collaborators that accept everything. *)
Definition ex_escape_params (d : list (string * Value)) : PyException + list (string * string) :=
  inr (map (fun kv => (fst kv, "?")) d).
Definition ex_percent_format (query : string) (escaped : list (string * string))
    : PyException + string := inr query.
Definition ex_Block_init_error (columns_with_types : list ColumnSpec) (data : list Row)
    (types_check : bool) : option PyException := None.

Definition ex_client : Client := mkClient [].

(** Two header blocks, the first without a column. *)
Definition ex_bare_header : Block := mkBlock [] [].
Definition ex_headers : list Packet := [PktData ex_bare_header; PktData ex_header].

Definition ex_rows : list Row := [[VInt 1]; [VInt 2]; [VInt 3]; [VInt 4]; [VInt 5]].

(** The packet is a data packet. *)
Definition is_data (p : Packet) : bool :=
  match packet_type p with
  | DATA => true
  | _ => false
  end.

Definition ex_tail : list Reply := [inr (PktData ex_block2)].

(** The sample stream cut short by a server error, and ended normally;
    [ex_tail] is what the server would send next. *)
Definition ex_stream_exception : Connection :=
  ex_connection (replies ex_packets ++ inr (PktException ex_error) :: ex_tail).
Definition ex_stream_end : Connection :=
  ex_connection (replies ex_packets ++ inr PktEndOfStream :: ex_tail).

(** A stream of blocks with rows only. *)
Definition ex_data_packets : list Packet := [PktData ex_block1; PktTotals ex_block2].
Definition ex_data_stream : Connection :=
  ex_connection (replies ex_data_packets ++ inr PktEndOfStream :: []).

(** Accumulators: fresh, and after the sample stream. *)
Definition ex_fresh : QueryResult := QueryResult_init GenSuspended true false.
Definition ex_merged : QueryResult :=
  mkQueryResult GenSuspended true
    [[VInt 1; VStr "a"]; [VInt 2; VStr "b"]; [VInt 3; VStr "c"]] ex_columns false.
Definition ex_with_schema : QueryResult :=
  mkQueryResult GenSuspended true [] ex_columns false.
Definition ex_progress_fresh : ProgressQueryResult :=
  ProgressQueryResult_init GenSuspended true false.

(** An insert whose statement the server rejects by closing the stream, and
    one that it accepts. *)
Definition ex_insert_refused : Connection := ex_connection [inr PktEndOfStream].
Definition ex_insert_accepted : Connection :=
  ex_connection [inr (PktData ex_header); inr PktEndOfStream].

(** [execute] of a query on the sample stream that a server error cuts
    short. *)
Definition ex_failed_query : (PyException + Returned) * Connection :=
  execute ex_escape_params ex_percent_format ex_Block_init_error ex_client
          "SELECT id, name FROM t" ParamsNone true None None None false false
          ex_stream_exception.

(** ** Vocabulary for the rest of [client.py] *)

(** A packet that an advance of the progress iterator merges or skips
    without yielding. *)
Definition merged_silently (p : Packet) : bool :=
  match p with
  | PktData _ | PktTotals _ | PktExtremes _ | PktOther _ => true
  | _ => false
  end.

(** The connection once [execute] has installed the settings, forced the
    connection and sent the query and the external tables. *)
Definition query_sent (query_settings : Settings) (query : string)
    (query_id : option string) (external_tables : option ExternalTables)
    (types_check : bool) (c : Connection) : Connection :=
  wrote [EvSendQuery query query_id query_settings;
         EvSendExternalTables external_tables types_check]
        (set_connected true (wrote [EvForceConnect] (set_context_settings query_settings c))).

(** The computation leaves the part [f] of the connection as it was. *)
Definition keeps {A X} (f : Connection -> X) (m : M A) : Prop :=
  forall c, f (snd (m c)) = f c.

(** [d.get(k)] on a dict kept in insertion order. *)
Fixpoint dict_get (k : string) (d : Settings) : option string :=
  match d with
  | [] => None
  | (k', v) :: d' => if String.eqb k k' then Some v else dict_get k d'
  end.

(** The value a sequence of assignments leaves for [k]: the last one. *)
Definition last_assigned (k : string) (other : Settings) : option string :=
  dict_get k (rev other).

(** The query that [process_ordinary_query] sends for [params]. *)
Definition query_to_send
    (escape_params : list (string * Value) -> PyException + list (string * string))
    (percent_format : string -> list (string * string) -> PyException + string)
    (query : string) (params : Params) : PyException + string :=
  match params with
  | ParamsNone => inr query
  | _ => substitute_params escape_params percent_format query params
  end.

(** ** More sample data *)

(** A column-major accumulator that holds one column, and a block of one
    column that leads to it. *)
Definition ex_single : Block := mkBlock [("id", "UInt32")] [[VInt 0]].
Definition ex_fresh_columnar : QueryResult := QueryResult_init GenSuspended false true.
Definition ex_one_column : QueryResult :=
  mkQueryResult GenSuspended false [[VInt 0]] [] true.

(** A stream whose second block has one column more than its first. *)
Definition ex_stream_widening : Connection :=
  ex_connection (replies [PktData ex_single] ++ inr (PktData ex_block1) :: ex_tail).

(** A stream on which the transport fails. *)
Definition ex_stream_broken : Connection :=
  ex_connection (replies ex_packets ++ inl (NetworkError "Connection reset") :: ex_tail).

(** What follows the first progress packet of the sample stream. *)
Definition ex_after_first_progress : list Reply :=
  replies [PktData ex_block1; PktOther PROFILE_INFO; PktProgress 1 10 0; PktData ex_block2]
  ++ inr PktEndOfStream :: ex_tail.

(** The progress result once the sample stream has been read. *)
Definition ex_progress_done : ProgressQueryResult :=
  mkProgressQueryResult (set_qr_packet_generator GenFinished ex_merged) (mkProgress 3 30 3).

(** A [%] that misses a key. *)
Definition ex_percent_format_strict (query : string) (escaped : list (string * string))
    : PyException + string :=
  match escaped with
  | [] => inl (KeyError "x")
  | _ :: _ => inr query
  end.

(** A [Block] constructor that rejects the rows starting with a 3. *)
Definition ex_Block_init_error_strict (columns_with_types : list ColumnSpec)
    (data : list Row) (types_check : bool) : option PyException :=
  match data with
  | [VInt 3] :: _ => Some (TypeError "Expected String")
  | _ => None
  end.

(** * Properties *)

(** ** The loops *)

Section Loops.
Context {S R : Type}.
Variable body : S -> M (Step S R).

Hypothesis body_consuming : consuming body.

Lemma repeat_until_enough fuel1 : forall fuel2 s c,
  length (inbox c) < fuel1 -> length (inbox c) < fuel2 ->
  repeat_until fuel1 body s c = repeat_until fuel2 body s c.
Proof.
  induction fuel1 as [|fuel1 IH]; intros fuel2 s c H1 H2; [lia|].
  destruct fuel2 as [|fuel2]; [lia|]. simpl.
  destruct (body s c) as [[e|[s'|r]] c'] eqn:Hb; try reflexivity.
  apply body_consuming in Hb. apply IH; lia.
Qed.

(** The loop is its body followed, on [Continue], by the loop: the bound on
    the number of turns is never reached. *)
Lemma while_true_unfold s c :
  while_true body s c =
  match body s c with
  | (inl e, c') => (inl e, c')
  | (inr (Break r), c') => (inr r, c')
  | (inr (Continue s'), c') => while_true body s' c'
  end.
Proof.
  unfold while_true at 1. simpl.
  destruct (body s c) as [[e|[s'|r]] c'] eqn:Hb; try reflexivity.
  apply body_consuming in Hb. unfold while_true.
  apply repeat_until_enough; lia.
Qed.

(** A loop whose results of kind [Q] cost a reply returns them only after
    the transport has given one. *)
Lemma repeat_until_consumes (Q : R -> Prop) :
  (forall s c r c', body s c = (inr (Break r), c') -> Q r ->
                    length (inbox c') < length (inbox c)) ->
  forall fuel s c r c',
    repeat_until fuel body s c = (inr r, c') -> Q r ->
    length (inbox c') < length (inbox c).
Proof.
  intros Hbreak. induction fuel as [|fuel IH]; intros s c r c' Hrun HQ; [discriminate|].
  simpl in Hrun. destruct (body s c) as [[e|[s'|r']] c1] eqn:Hb.
  - discriminate.
  - apply body_consuming in Hb. apply IH in Hrun; [lia|assumption].
  - inversion Hrun; subst. eapply Hbreak; eauto.
Qed.

End Loops.

(** ** Reading the transport *)

Lemma reads_reads n m rest rest' c :
  reads n rest' (reads m rest c) = reads (m + n) rest' c.
Proof.
  unfold reads; simpl. f_equal. rewrite <- app_assoc. f_equal.
  symmetry. apply replicate_add.
Qed.

Lemma reads_0 c : reads 0 (inbox c) c = c.
Proof. destruct c; unfold reads; simpl. by rewrite app_nil_r. Qed.

Lemma connection_receive_packet_cons r rest c :
  inbox c = r :: rest ->
  connection_receive_packet c =
  (match r with inl e => inl e | inr p => inr p end, reads 1 rest c).
Proof.
  intros H. unfold connection_receive_packet. simpl. rewrite H.
  destruct r; reflexivity.
Qed.

Lemma connection_receive_packet_nil c :
  inbox c = [] ->
  connection_receive_packet c = (inl EOFError, reads 1 [] c).
Proof.
  intros H. unfold connection_receive_packet. simpl. rewrite H.
  unfold reads, log. simpl. by rewrite H.
Qed.

Lemma connection_receive_packet_shorter c p c' :
  connection_receive_packet c = (inr p, c') -> length (inbox c') < length (inbox c).
Proof.
  unfold connection_receive_packet. simpl.
  destruct (inbox c) as [|[e|q] rest]; intros H; inversion H; subst; simpl; lia.
Qed.

Lemma receive_packet_shorter c r c' :
  receive_packet c = (inr r, c') -> length (inbox c') < length (inbox c).
Proof.
  unfold receive_packet, bind.
  destruct (connection_receive_packet c) as [[e|p] c1] eqn:H; [discriminate|].
  apply connection_receive_packet_shorter in H.
  destruct p; unfold ret, raise; intros Hr; inversion Hr; subst; assumption.
Qed.

Lemma packet_generator_body_shorter s c x c' :
  packet_generator_body s c = (inr x, c') -> length (inbox c') < length (inbox c).
Proof.
  unfold packet_generator_body, try_except, bind.
  destruct (receive_packet c) as [[e|r] c1] eqn:H.
  - unfold connection_disconnect, raise. discriminate.
  - apply receive_packet_shorter in H.
    destruct r; unfold ret; intros Hr; inversion Hr; subst; assumption.
Qed.

Lemma packet_generator_body_consuming : consuming packet_generator_body.
Proof. intros s c s' c' H. by apply packet_generator_body_shorter in H. Qed.

(** What the suspended generator does with the reply at the head of the
    inbox. *)
Lemma generator_next_cons r rest c :
  inbox c = r :: rest ->
  generator_next GenSuspended c =
  match r with
  | inl e => (inl e, disconnected (reads 1 rest c))
  | inr (PktException e) => (inl e, disconnected (reads 1 rest c))
  | inr PktEndOfStream => (inr (None, GenFinished), reads 1 rest c)
  | inr (PktOther _) => generator_next GenSuspended (reads 1 rest c)
  | inr p => (inr (Some p, GenSuspended), reads 1 rest c)
  end.
Proof.
  intros H. unfold generator_next, bind.
  rewrite (while_true_unfold _ packet_generator_body_consuming).
  unfold packet_generator_body at 1, try_except, bind, receive_packet at 1, bind.
  rewrite (connection_receive_packet_cons _ _ _ H).
  destruct r as [e|[]]; reflexivity.
Qed.

Lemma generator_next_nil c :
  inbox c = [] ->
  generator_next GenSuspended c = (inl EOFError, disconnected (reads 1 [] c)).
Proof.
  intros H. unfold generator_next, bind.
  rewrite (while_true_unfold _ packet_generator_body_consuming).
  unfold packet_generator_body at 1, try_except, bind, receive_packet at 1, bind.
  by rewrite (connection_receive_packet_nil _ H).
Qed.

(** A generator that hands out a packet has taken it from the transport. *)
Lemma generator_next_shorter g c p g' c' :
  generator_next g c = (inr (Some p, g'), c') -> length (inbox c') < length (inbox c).
Proof.
  destruct g; [|discriminate].
  unfold generator_next, bind, while_true.
  destruct (repeat_until _ _ _ _) as [[e|r] c1] eqn:H; [discriminate|].
  apply (repeat_until_consumes _ packet_generator_body_consuming (fun _ => True)) in H;
    [|intros; eapply packet_generator_body_shorter; eauto|exact I].
  destruct r; unfold ret; intros Hr; inversion Hr; subst; assumption.
Qed.

(** ** The accumulators, one reply at a time *)

Lemma set_qr_packet_generator_same self :
  set_qr_packet_generator (qr_packet_generator self) self = self.
Proof. by destruct self. Qed.

Lemma store_generator self p self' :
  store self p = inr self' -> qr_packet_generator self' = qr_packet_generator self.
Proof.
  unfold store. intros H.
  repeat match type of H with
         | context [match ?x with _ => _ end] => destruct x
         end; inversion H; subst; reflexivity.
Qed.

Lemma get_result_body_consuming : consuming get_result_body.
Proof.
  intros s c s' c'. unfold get_result_body, bind.
  destruct (generator_next _ c) as [[e|[[p|] g]] c1] eqn:H; simpl; try discriminate.
  apply generator_next_shorter in H.
  unfold lift. destruct (store _ p); unfold ret; intros Hr; inversion Hr; subst; assumption.
Qed.

(** What the loop of [QueryResult.get_result] does with the reply at the head
    of the inbox. *)
Lemma get_result_loop_cons r rest self c :
  qr_packet_generator self = GenSuspended ->
  inbox c = r :: rest ->
  while_true get_result_body self c =
  match r with
  | inl e => (inl e, disconnected (reads 1 rest c))
  | inr (PktException e) => (inl e, disconnected (reads 1 rest c))
  | inr PktEndOfStream =>
      (inr (set_qr_packet_generator GenFinished self), reads 1 rest c)
  | inr (PktOther _) => while_true get_result_body self (reads 1 rest c)
  | inr p =>
      match store self p with
      | inl e => (inl e, reads 1 rest c)
      | inr self' => while_true get_result_body self' (reads 1 rest c)
      end
  end.
Proof.
  intros Hg H.
  assert (Hother : forall k, r = inr (PktOther k) ->
            get_result_body self c = get_result_body self (reads 1 rest c)).
  { intros k ->. unfold get_result_body, bind. rewrite Hg.
    by rewrite (generator_next_cons _ _ _ H). }
  rewrite (while_true_unfold _ get_result_body_consuming).
  destruct r as [e|p].
  - unfold get_result_body, bind. rewrite Hg, (generator_next_cons _ _ _ H). reflexivity.
  - destruct p; try (rewrite (Hother _ eq_refl);
                     by rewrite <- (while_true_unfold _ get_result_body_consuming));
      unfold get_result_body, bind; rewrite Hg, (generator_next_cons _ _ _ H); simpl;
      rewrite <- ?Hg, ?set_qr_packet_generator_same; unfold lift; try reflexivity;
      match goal with |- context [store self ?p] => destruct (store self p) end;
      reflexivity.
Qed.

(** A finished generator ends the loop at once. *)
Lemma get_result_loop_finished self c :
  qr_packet_generator self = GenFinished ->
  while_true get_result_body self c = (inr self, c).
Proof.
  intros Hg. rewrite (while_true_unfold _ get_result_body_consuming).
  unfold get_result_body, bind. rewrite Hg. simpl.
  by rewrite <- Hg, set_qr_packet_generator_same.
Qed.

Lemma next_body_consuming : consuming next_body.
Proof.
  intros s c s' c'. unfold next_body, bind.
  destruct (generator_next _ c) as [[e|[[p|] g]] c1] eqn:H; simpl; try discriminate.
  apply generator_next_shorter in H.
  destruct (packet_progress p); [discriminate|].
  unfold lift. destruct (store _ p); unfold ret; intros Hr; inversion Hr; subst; assumption.
Qed.

Lemma next_shorter self c item self' c' :
  next self c = (inr (Some item, self'), c') -> length (inbox c') < length (inbox c).
Proof.
  unfold next, while_true. intros H.
  apply (repeat_until_consumes _ next_body_consuming (fun r => is_Some (fst r))) in H;
    [assumption| |simpl; eauto].
  clear. intros s c r c'. unfold next_body, bind.
  destruct (generator_next _ c) as [[e|[[p|] g]] c1] eqn:H; simpl; try discriminate.
  - apply generator_next_shorter in H.
    destruct (packet_progress p).
    + unfold ret. intros Hr; inversion Hr; subst. intros _. assumption.
    + unfold lift. destruct (store _ p); discriminate.
  - unfold ret. intros Hr; inversion Hr; subst. simpl. intros [? ?]; discriminate.
Qed.

Lemma iterate_body_consuming : consuming iterate_body.
Proof.
  intros [acc self] c s' c'. unfold iterate_body, bind. simpl.
  destruct (next self c) as [[e|[[item|] self1]] c1] eqn:H; simpl; try discriminate.
  apply next_shorter in H. unfold ret. intros Hr; inversion Hr; subst; assumption.
Qed.

(** What [ProgressQueryResult.next] does with the reply at the head of the
    inbox. *)
Lemma next_cons r rest self c :
  qr_packet_generator (pqr_base self) = GenSuspended ->
  inbox c = r :: rest ->
  next self c =
  match r with
  | inl e => (inl e, disconnected (reads 1 rest c))
  | inr (PktException e) => (inl e, disconnected (reads 1 rest c))
  | inr PktEndOfStream => (inr (None, set_pqr_generator GenFinished self), reads 1 rest c)
  | inr (PktOther _) => next self (reads 1 rest c)
  | inr (PktProgress rows bytes total_rows) =>
      let out := store_progress self (mkProgress rows bytes total_rows) in
      (inr (Some (fst out), snd out), reads 1 rest c)
  | inr p =>
      match store (pqr_base self) p with
      | inl e => (inl e, reads 1 rest c)
      | inr base => next (mkProgressQueryResult base (progress_totals self)) (reads 1 rest c)
      end
  end.
Proof.
  intros Hg H. unfold next.
  assert (Hsame : mkProgressQueryResult
                    (set_qr_packet_generator GenSuspended (pqr_base self))
                    (progress_totals self) = self).
  { rewrite <- Hg, set_qr_packet_generator_same. by destruct self. }
  assert (Hbase : set_qr_packet_generator GenSuspended (pqr_base self) = pqr_base self).
  { by rewrite <- Hg, set_qr_packet_generator_same. }
  assert (Hother : forall k, r = inr (PktOther k) ->
            next_body self c = next_body self (reads 1 rest c)).
  { intros k ->. unfold next_body, bind. rewrite Hg.
    by rewrite (generator_next_cons _ _ _ H). }
  rewrite (while_true_unfold _ next_body_consuming).
  destruct r as [e|p].
  - unfold next_body, bind. rewrite Hg, (generator_next_cons _ _ _ H). reflexivity.
  - destruct p; try (rewrite (Hother _ eq_refl);
                     by rewrite <- (while_true_unfold _ next_body_consuming));
      unfold next_body, bind; rewrite Hg, (generator_next_cons _ _ _ H); simpl;
      rewrite ?Hbase, ?Hsame; unfold lift; try reflexivity;
      match goal with |- context [store ?s ?p] => destruct (store s p) end;
      reflexivity.
Qed.

Lemma next_finished self c :
  qr_packet_generator (pqr_base self) = GenFinished ->
  next self c = (inr (None, self), c).
Proof.
  intros Hg. unfold next. rewrite (while_true_unfold _ next_body_consuming).
  unfold next_body, bind. rewrite Hg. simpl.
  rewrite <- Hg, set_qr_packet_generator_same. by destruct self.
Qed.

Lemma drain_body_consuming : consuming drain_body.
Proof.
  intros [acc g] c s' c'. unfold drain_body, bind. simpl.
  destruct (generator_next g c) as [[e|[[p|] g1]] c1] eqn:H; simpl; try discriminate.
  apply generator_next_shorter in H. unfold ret. intros Hr; inversion Hr; subst; assumption.
Qed.

(** What [list(packet_generator)] does with the reply at the head of the
    inbox. *)
Lemma drain_loop_cons r rest acc c :
  inbox c = r :: rest ->
  while_true drain_body (acc, GenSuspended) c =
  match r with
  | inl e => (inl e, disconnected (reads 1 rest c))
  | inr (PktException e) => (inl e, disconnected (reads 1 rest c))
  | inr PktEndOfStream => (inr (acc, GenFinished), reads 1 rest c)
  | inr (PktOther _) => while_true drain_body (acc, GenSuspended) (reads 1 rest c)
  | inr p => while_true drain_body (acc ++ [p], GenSuspended) (reads 1 rest c)
  end.
Proof.
  intros H. rewrite (while_true_unfold _ drain_body_consuming).
  unfold drain_body at 1, bind. cbn [fst snd]. rewrite (generator_next_cons _ _ _ H).
  destruct r as [e|[]]; try reflexivity.
  rewrite (while_true_unfold _ drain_body_consuming (acc, GenSuspended)).
  reflexivity.
Qed.

(** What a [for item in result:] loop does with the reply at the head of the
    inbox. *)
Lemma iterate_loop_cons r rest acc self c :
  qr_packet_generator (pqr_base self) = GenSuspended ->
  inbox c = r :: rest ->
  while_true iterate_body (acc, self) c =
  match r with
  | inl e => (inl e, disconnected (reads 1 rest c))
  | inr (PktException e) => (inl e, disconnected (reads 1 rest c))
  | inr PktEndOfStream =>
      (inr (acc, set_pqr_generator GenFinished self), reads 1 rest c)
  | inr (PktOther _) => while_true iterate_body (acc, self) (reads 1 rest c)
  | inr (PktProgress rows bytes total_rows) =>
      let out := store_progress self (mkProgress rows bytes total_rows) in
      while_true iterate_body (acc ++ [fst out], snd out) (reads 1 rest c)
  | inr p =>
      match store (pqr_base self) p with
      | inl e => (inl e, reads 1 rest c)
      | inr base =>
          while_true iterate_body
            (acc, mkProgressQueryResult base (progress_totals self)) (reads 1 rest c)
      end
  end.
Proof.
  intros Hg H. rewrite (while_true_unfold _ iterate_body_consuming).
  unfold iterate_body at 1, bind. cbn [fst snd]. rewrite (next_cons _ _ _ _ Hg H).
  destruct r as [e|[]]; try reflexivity;
    try (destruct (store _ _); [reflexivity|]);
    match goal with
    | |- _ = while_true _ ?st ?c1 =>
        rewrite (while_true_unfold _ iterate_body_consuming st c1)
    end; reflexivity.
Qed.

(** ** The accumulators over a whole stream *)

Lemma store_all_generator ps : forall self self',
  store_all self ps = inr self' -> qr_packet_generator self' = qr_packet_generator self.
Proof.
  induction ps as [|p ps IH]; intros self self' H; simpl in H.
  - by inversion H.
  - destruct (store self p) as [e|s1] eqn:Hst; [discriminate|].
    rewrite (IH _ _ H). by apply store_generator in Hst.
Qed.

Lemma store_all_app ps qs self self' :
  store_all self ps = inr self' -> store_all self (ps ++ qs) = store_all self' qs.
Proof.
  revert self. induction ps as [|p ps IH]; intros self H; simpl in *.
  - by inversion H.
  - destruct (store self p); [discriminate|]. by apply IH.
Qed.

(** The loop of [get_result] over the packets that do not end the stream. *)
Lemma get_result_loop_stream ps : forall self self' c tail,
  forallb flowing ps = true ->
  qr_packet_generator self = GenSuspended ->
  inbox c = replies ps ++ tail ->
  store_all self ps = inr self' ->
  while_true get_result_body self c =
  while_true get_result_body self' (reads (length ps) tail c).
Proof.
  induction ps as [|p ps IH]; intros self self' c tail Hf Hg Hin Hs.
  - simpl in *. inversion Hs; subst. by rewrite reads_0.
  - simpl in Hf. apply andb_prop in Hf as [Hp Hf]. simpl in Hin, Hs.
    rewrite (get_result_loop_cons _ _ _ _ Hg Hin).
    destruct (store self p) as [e|s1] eqn:Hst; [discriminate|].
    assert (Hg1 : qr_packet_generator s1 = GenSuspended).
    { by rewrite (store_generator _ _ _ Hst). }
    specialize (IH s1 self' (reads 1 (replies ps ++ tail) c) tail Hf Hg1 eq_refl Hs).
    rewrite reads_reads in IH.
    destruct p; try discriminate Hp; try exact IH.
    inversion Hst; subst. exact IH.
Qed.

(** The [for item in result:] loop over the packets that do not end the
    stream. *)
Lemma iterate_loop_stream ps : forall acc self base' c tail,
  forallb flowing ps = true ->
  qr_packet_generator (pqr_base self) = GenSuspended ->
  inbox c = replies ps ++ tail ->
  store_all (pqr_base self) ps = inr base' ->
  while_true iterate_body (acc, self) c =
  while_true iterate_body
    (acc ++ running_from (progress_totals self) (progress_packets ps),
     mkProgressQueryResult base'
       (fold_left add_progress (progress_packets ps) (progress_totals self)))
    (reads (length ps) tail c).
Proof.
  induction ps as [|p ps IH]; intros acc self base' c tail Hf Hg Hin Hs.
  - simpl in *. inversion Hs; subst. rewrite reads_0, app_nil_r. by destruct self.
  - simpl in Hf. apply andb_prop in Hf as [Hp Hf]. simpl in Hin, Hs.
    rewrite (iterate_loop_cons _ _ _ _ _ Hg Hin).
    destruct (store (pqr_base self) p) as [e|s1] eqn:Hst; [discriminate|].
    assert (Hg1 : qr_packet_generator s1 = GenSuspended).
    { by rewrite (store_generator _ _ _ Hst). }
    destruct p; try discriminate Hp; cbv zeta.
    1,3,4: erewrite IH; [rewrite reads_reads; reflexivity|done..].
    + inversion Hst; subst s1.
      erewrite IH; [rewrite reads_reads; simpl; rewrite <- app_assoc; reflexivity|done..].
    + inversion Hst; subst s1.
      erewrite IH; [rewrite reads_reads; reflexivity|done..].
Qed.

(** [list(packet_generator)] over the packets that do not end the stream. *)
Lemma drain_loop_stream ps : forall acc c tail,
  forallb flowing ps = true ->
  inbox c = replies ps ++ tail ->
  while_true drain_body (acc, GenSuspended) c =
  while_true drain_body (acc ++ List.filter surfaced ps, GenSuspended)
             (reads (length ps) tail c).
Proof.
  induction ps as [|p ps IH]; intros acc c tail Hf Hin.
  - simpl in *. by rewrite <- Hin, reads_0, app_nil_r.
  - simpl in Hf. apply andb_prop in Hf as [Hp Hf]. simpl in Hin.
    rewrite (drain_loop_cons _ _ _ _ Hin).
    destruct p; try discriminate Hp; simpl;
      rewrite (IH _ (reads 1 (replies ps ++ tail) c) tail Hf eq_refl), reads_reads;
      simpl; by rewrite <- ?app_assoc.
Qed.

Lemma store_all_surfaced ps : forall self,
  forallb flowing ps = true ->
  store_all self (List.filter surfaced ps) = store_all self ps.
Proof.
  induction ps as [|p ps IH]; intros self Hf; [reflexivity|].
  simpl in Hf. apply andb_prop in Hf as [Hp Hf].
  destruct p; try discriminate Hp; simpl;
    try (destruct (store self _); [reflexivity|by apply IH]).
  - by apply IH.
  - by apply IH.
Qed.

Lemma disconnects_app t u : disconnects (t ++ u) = disconnects t + disconnects u.
Proof. unfold disconnects. by rewrite List.filter_app, length_app. Qed.

Lemma disconnects_reads n rest c : disconnects (trace (reads n rest c)) = disconnects (trace c).
Proof.
  simpl. rewrite disconnects_app.
  assert (disconnects (replicate n EvReceivePacket) = 0) as ->; [|lia].
  induction n; [reflexivity|assumption].
Qed.

Lemma disconnects_disconnected c :
  disconnects (trace (disconnected c)) = S (disconnects (trace c)).
Proof. simpl. rewrite disconnects_app. simpl. unfold disconnects at 2. simpl. lia. Qed.

Lemma running_from_totals l : forall t,
  running_from t l =
  map (fun i => ((pg_rows t + total pg_rows (take (S i) l))%Z,
                 (pg_total_rows t + total pg_total_rows (take (S i) l))%Z))
      (seq 0 (length l)).
Proof.
  induction l as [|p l IH]; intros t; [reflexivity|].
  simpl. f_equal.
  - destruct l; simpl; f_equal; lia.
  - rewrite IH, <- seq_shift, map_map. apply map_ext. intros i. simpl. f_equal; lia.
Qed.

Lemma fold_left_add_progress l : forall t,
  fold_left add_progress l t =
  mkProgress (pg_rows t + total pg_rows l) (pg_bytes t + total pg_bytes l)
             (pg_total_rows t + total pg_total_rows l).
Proof.
  induction l as [|p l IH]; intros t; simpl.
  - destruct t; simpl. f_equal; lia.
  - rewrite IH. simpl. f_equal; lia.
Qed.

Lemma running_from_zero l : running_from (mkProgress 0 0 0) l = running_totals l.
Proof. rewrite running_from_totals. reflexivity. Qed.

(** ** End of stream *)

Lemma get_result_end_of_stream ps rest c self self' :
  forallb flowing ps = true ->
  inbox c = replies ps ++ inr PktEndOfStream :: rest ->
  qr_packet_generator self = GenSuspended ->
  store_all self ps = inr self' ->
  get_result self c =
  (inr (result_of self', set_qr_packet_generator GenFinished self'),
   reads (S (length ps)) rest c).
Proof.
  intros Hf Hin Hg Hs. unfold get_result, bind.
  rewrite (get_result_loop_stream ps self self' c _ Hf Hg Hin Hs).
  erewrite get_result_loop_cons; [|by rewrite (store_all_generator _ _ _ Hs)|reflexivity].
  rewrite reads_reads, Nat.add_1_r. reflexivity.
Qed.

Lemma iterate_end_of_stream ps rest c self base' :
  forallb flowing ps = true ->
  inbox c = replies ps ++ inr PktEndOfStream :: rest ->
  qr_packet_generator (pqr_base self) = GenSuspended ->
  store_all (pqr_base self) ps = inr base' ->
  iterate self c =
  (inr (running_from (progress_totals self) (progress_packets ps),
        mkProgressQueryResult
          (set_qr_packet_generator GenFinished base')
          (fold_left add_progress (progress_packets ps) (progress_totals self))),
   reads (S (length ps)) rest c).
Proof.
  intros Hf Hin Hg Hs. unfold iterate.
  rewrite (iterate_loop_stream ps [] self base' c _ Hf Hg Hin Hs).
  erewrite iterate_loop_cons;
    [|simpl; by rewrite (store_all_generator _ _ _ Hs)|reflexivity].
  rewrite reads_reads, Nat.add_1_r. reflexivity.
Qed.

(** ** An exception packet in the stream *)

Lemma get_result_exception ps e rest c self self' :
  forallb flowing ps = true ->
  inbox c = replies ps ++ inr (PktException e) :: rest ->
  qr_packet_generator self = GenSuspended ->
  store_all self ps = inr self' ->
  get_result self c = (inl e, disconnected (reads (S (length ps)) rest c)).
Proof.
  intros Hf Hin Hg Hs. unfold get_result, bind.
  rewrite (get_result_loop_stream ps self self' c _ Hf Hg Hin Hs).
  erewrite get_result_loop_cons; [|by rewrite (store_all_generator _ _ _ Hs)|reflexivity].
  rewrite reads_reads, Nat.add_1_r. reflexivity.
Qed.

Lemma iterate_exception ps e rest c self base' :
  forallb flowing ps = true ->
  inbox c = replies ps ++ inr (PktException e) :: rest ->
  qr_packet_generator (pqr_base self) = GenSuspended ->
  store_all (pqr_base self) ps = inr base' ->
  iterate self c = (inl e, disconnected (reads (S (length ps)) rest c)).
Proof.
  intros Hf Hin Hg Hs. unfold iterate.
  rewrite (iterate_loop_stream ps [] self base' c _ Hf Hg Hin Hs).
  erewrite iterate_loop_cons;
    [|simpl; by rewrite (store_all_generator _ _ _ Hs)|reflexivity].
  rewrite reads_reads, Nat.add_1_r. reflexivity.
Qed.

(** * The claims about the packet stream and the accumulators *)

(** C3. An exception packet in the stream, after any number of data, progress
    and other packets that do not end it: eager accumulation
    ([QueryResult.get_result]), iteration over a [ProgressQueryResult] and
    its [get_result] all stop at that packet (what follows it stays with the
    transport), raise the server's error itself, and [disconnect()] is called
    exactly once. The packets before it are taken to merge without error. *)
Theorem exception_packet_aborts_and_disconnects_once
    (ps : list Packet) (e : PyException) (rest : list Reply) (c : Connection)
    (self self' : QueryResult) (pself : ProgressQueryResult) (pbase' : QueryResult) :
  forallb flowing ps = true ->
  inbox c = replies ps ++ inr (PktException e) :: rest ->
  qr_packet_generator self = GenSuspended ->
  store_all self ps = inr self' ->
  qr_packet_generator (pqr_base pself) = GenSuspended ->
  store_all (pqr_base pself) ps = inr pbase' ->
  let c_end := disconnected (reads (S (length ps)) rest c) in
  get_result self c = (inl e, c_end) /\
  iterate pself c = (inl e, c_end) /\
  progress_get_result pself c = (inl e, c_end) /\
  inbox c_end = rest /\
  disconnects (trace c_end) = S (disconnects (trace c)).
Proof.
  intros Hf Hin Hg Hs Hpg Hps c_end.
  assert (Hit : iterate pself c = (inl e, c_end)).
  { eapply iterate_exception; eauto. }
  repeat split.
  - eapply get_result_exception; eauto.
  - exact Hit.
  - unfold progress_get_result, bind. by rewrite Hit.
  - subst c_end. by rewrite disconnects_disconnected, disconnects_reads.
Qed.

(** Inside [execute] the error of an exception packet passes through two
    handlers, the generator's and that of [execute]: on the sample stream
    [disconnect()] is called twice. *)
Lemma execute_disconnects_again_after_the_generator :
  fst ex_failed_query = inl ex_error /\
  disconnects (trace (snd ex_failed_query)) = 2.
Proof. split; vm_compute; reflexivity. Qed.

(** C5. Progress packets with counters [r_i], [b_i], [t_i], interleaved with
    data packets and followed by the end of the stream: iterating over a
    fresh [ProgressQueryResult] yields one pair for each progress packet, the
    running sums [(r_1 + ... + r_i, t_1 + ... + t_i)] in arrival order, and
    leaves the totals at the exact sums of the [r_i], [b_i] and [t_i]. *)
Theorem progress_totals_are_exact_sums
    (ps : list Packet) (rest : list Reply) (c : Connection)
    (with_column_types columnar : bool) (base' : QueryResult) :
  forallb flowing ps = true ->
  inbox c = replies ps ++ inr PktEndOfStream :: rest ->
  store_all (QueryResult_init GenSuspended with_column_types columnar) ps = inr base' ->
  let sent := progress_packets ps in
  iterate (ProgressQueryResult_init GenSuspended with_column_types columnar) c =
  (inr (running_totals sent,
        mkProgressQueryResult
          (set_qr_packet_generator GenFinished base')
          (mkProgress (total pg_rows sent) (total pg_bytes sent) (total pg_total_rows sent))),
   reads (S (length ps)) rest c) /\
  length (running_totals sent) = length sent.
Proof.
  intros Hf Hin Hs sent. split.
  - erewrite iterate_end_of_stream; eauto.
    simpl. by rewrite running_from_zero, fold_left_add_progress.
  - unfold running_totals. by rewrite length_map, length_seq.
Qed.

(** C7. A stream of packets that ends with an end-of-stream packet: the
    generator yields the data, progress, totals and extremes packets before
    it, in order, and none of the other kinds; it then stops without an
    error, and stays stopped. Eager accumulation and progress iteration
    complete, with what the yielded packets merge to; [disconnect()] is not
    called, and what follows the end-of-stream packet stays with the
    transport. *)
Theorem end_of_stream_terminates
    (ps : list Packet) (rest : list Reply) (c : Connection)
    (self self' : QueryResult) (pself : ProgressQueryResult) (pbase' : QueryResult) :
  forallb flowing ps = true ->
  inbox c = replies ps ++ inr PktEndOfStream :: rest ->
  qr_packet_generator self = GenSuspended ->
  store_all self (List.filter surfaced ps) = inr self' ->
  qr_packet_generator (pqr_base pself) = GenSuspended ->
  store_all (pqr_base pself) (List.filter surfaced ps) = inr pbase' ->
  let c_end := reads (S (length ps)) rest c in
  let pself' :=
    mkProgressQueryResult
      (set_qr_packet_generator GenFinished pbase')
      (fold_left add_progress (progress_packets ps) (progress_totals pself)) in
  drain GenSuspended c = (inr (List.filter surfaced ps, GenFinished), c_end) /\
  (forall c', generator_next GenFinished c' = (inr (None, GenFinished), c')) /\
  get_result self c =
    (inr (result_of self', set_qr_packet_generator GenFinished self'), c_end) /\
  iterate pself c =
    (inr (running_from (progress_totals pself) (progress_packets ps), pself'), c_end) /\
  progress_get_result pself c = (inr (result_of pbase', pself'), c_end) /\
  inbox c_end = rest /\
  disconnects (trace c_end) = disconnects (trace c).
Proof.
  intros Hf Hin Hg Hs Hpg Hps c_end pself'.
  rewrite store_all_surfaced in Hs, Hps by assumption.
  assert (Hit : iterate pself c =
    (inr (running_from (progress_totals pself) (progress_packets ps), pself'), c_end)).
  { eapply iterate_end_of_stream; eauto. }
  repeat split.
  - unfold drain. rewrite (drain_loop_stream ps [] c _ Hf Hin).
    erewrite drain_loop_cons; [|reflexivity].
    subst c_end. by rewrite reads_reads, Nat.add_1_r.
  - eapply get_result_end_of_stream; eauto.
  - exact Hit.
  - unfold progress_get_result, bind. rewrite Hit. cbn [fst snd].
    unfold get_result, bind. rewrite get_result_loop_finished by reflexivity.
    reflexivity.
  - subst c_end. by rewrite disconnects_reads.
Qed.

(** ** Transposition *)

Section Transpose.
Context {A : Type}.
Implicit Types (r : list A) (m : list (list A)).

Lemma zip_with_app_singletons r m :
  zip_with app (map (fun x => [x]) r) m = zip_with cons r m.
Proof.
  revert m. induction r as [|x r IH]; intros [|t m]; simpl; try reflexivity.
  by rewrite IH.
Qed.

Lemma zip_with_app_cons r m1 m2 :
  zip_with app (zip_with cons r m1) m2 = zip_with cons r (zip_with app m1 m2).
Proof.
  revert m1 m2. induction r as [|x r IH]; intros [|t m1] [|u m2]; simpl;
    try reflexivity.
  by rewrite IH.
Qed.

(** The columns of two batches of rows, joined column by column, are the
    columns of the two batches together. *)
Lemma transpose_app m1 m2 :
  m1 <> [] -> m2 <> [] ->
  zip_with app (transpose m1) (transpose m2) = transpose (m1 ++ m2).
Proof.
  intros H1 H2. induction m1 as [|r m1 IH]; [done|].
  destruct m1 as [|r' m1].
  - simpl. rewrite zip_with_app_singletons. by destruct m2.
  - change (transpose (r :: r' :: m1)) with (zip_with cons r (transpose (r' :: m1))).
    rewrite zip_with_app_cons, IH by done. reflexivity.
Qed.

Lemma length_transpose k m :
  m <> [] -> Forall (fun r => length r = k) m -> length (transpose m) = k.
Proof.
  intros Hne Hk. induction m as [|r m IH]; [done|].
  inversion Hk as [|? ? Hr Hm]; subst.
  destruct m as [|r' m].
  - simpl. by rewrite length_map.
  - change (transpose (r :: r' :: m)) with (zip_with cons r (transpose (r' :: m))).
    rewrite length_zip_with, IH by done.
    inversion Hm; subst. lia.
Qed.

Lemma transpose_singletons r : r <> [] -> transpose (map (fun x => [x]) r) = [r].
Proof.
  intros Hne. induction r as [|x r IH]; [done|].
  destruct r as [|y r]; [reflexivity|].
  change (transpose (map (fun x => [x]) (x :: y :: r)))
    with (zip_with cons [x] (transpose (map (fun x => [x]) (y :: r)))).
  by rewrite IH.
Qed.

Lemma transpose_zip_with_cons m : forall r,
  m <> [] -> length r = length m ->
  transpose (zip_with cons r m) = r :: transpose m.
Proof.
  induction m as [|t m IH]; intros r Hne Hlen; [done|].
  destruct r as [|x r]; [discriminate|].
  destruct m as [|t' m].
  - destruct r; [reflexivity|discriminate].
  - destruct r as [|x' r]; [discriminate|].
    change (zip_with cons (x :: x' :: r) (t :: t' :: m))
      with ((x :: t) :: zip_with cons (x' :: r) (t' :: m)).
    assert (Hz : zip_with cons (x' :: r) (t' :: m) <> []) by done.
    destruct (zip_with cons (x' :: r) (t' :: m)) as [|z zs] eqn:Heq; [done|].
    change (transpose ((x :: t) :: z :: zs))
      with (zip_with cons (x :: t) (transpose (z :: zs))).
    rewrite <- Heq, IH by (done || (simpl in *; lia)).
    reflexivity.
Qed.

(** Rows read back from the columns of a rectangular, non-empty batch with
    at least one column are the rows of the batch. *)
Lemma transpose_transpose k m :
  0 < k -> m <> [] -> Forall (fun r => length r = k) m ->
  transpose (transpose m) = m.
Proof.
  intros Hk Hne Hm. induction m as [|r m IH]; [done|].
  inversion Hm as [|? ? Hr Hm']; subst.
  destruct m as [|r' m].
  - simpl. apply transpose_singletons. destruct r; [simpl in Hk; lia|done].
  - change (transpose (r :: r' :: m)) with (zip_with cons r (transpose (r' :: m))).
    assert (Hlen : length (transpose (r' :: m)) = length r).
    { by apply length_transpose. }
    rewrite transpose_zip_with_cons, IH; try done.
    destruct (transpose (r' :: m)); [simpl in Hlen; lia|done].
Qed.

End Transpose.

(** ** Merging blocks *)

(** With as many new columns as there are columns so far, the loop that
    extends the columns joins them pairwise. *)
Lemma extend_columns_zip columns : forall done todo,
  length columns = length todo ->
  extend_columns (length done) columns (done ++ todo) =
  inr (done ++ zip_with app todo columns).
Proof.
  induction columns as [|column columns IH]; intros done todo Hlen.
  - destruct todo; [|discriminate]. reflexivity.
  - destruct todo as [|d todo]; [discriminate|]. simpl.
    rewrite list_lookup_middle by reflexivity.
    rewrite insert_app_r_alt, Nat.sub_diag by lia. simpl.
    specialize (IH (done ++ [d ++ column]) todo).
    rewrite length_app, Nat.add_1_r, <- !app_assoc in IH. simpl in IH.
    apply IH. simpl in Hlen. lia.
Qed.

Lemma set_qr_data_twice d1 d2 self :
  set_qr_data d2 (set_qr_data d1 self) = set_qr_data d2 self.
Proof. reflexivity. Qed.

Lemma carries_rows_block k p :
  carries_rows k p = true ->
  exists b, packet_block p = Some b /\ blk_data b <> [] /\
            Forall (fun r => length r = k) (blk_data b).
Proof.
  unfold carries_rows. destruct (packet_block p) as [b|]; [|discriminate].
  intros H. apply andb_prop in H as [Hrows Hk]. exists b. repeat split.
  - unfold blk_rows in Hrows. destruct (blk_data b); [discriminate|done].
  - apply Forall_forall. intros r Hr.
    rewrite forallb_forall in Hk. apply Nat.eqb_eq, Hk. by apply list_elem_of_In.
Qed.

Lemma carries_rows_flowing k ps :
  forallb (carries_rows k) ps = true -> forallb flowing ps = true.
Proof.
  induction ps as [|p ps IH]; [reflexivity|]. simpl.
  intros H. apply andb_prop in H as [Hp H]. rewrite (IH H), andb_true_r.
  by destruct p.
Qed.

(** Row-major accumulation appends the rows of each block. *)
Lemma store_all_rows k ps : forall self,
  forallb (carries_rows k) ps = true ->
  qr_columnar self = false ->
  store_all self ps = inr (set_qr_data (qr_data self ++ rows_of ps) self).
Proof.
  induction ps as [|p ps IH]; intros self Hps Hc.
  - simpl. unfold rows_of. simpl. rewrite app_nil_r. by destruct self.
  - simpl in Hps. apply andb_prop in Hps as [Hp Hps].
    destruct (carries_rows_block _ _ Hp) as (b & Hb & Hne & _).
    simpl. unfold store. rewrite Hb, Hc. unfold blk_rows.
    destruct (blk_data b) as [|r rows] eqn:Hd; [done|]. simpl.
    rewrite IH by done. simpl. unfold rows_of. simpl. rewrite Hb. simpl.
    unfold get_rows. rewrite Hd. by rewrite <- app_assoc.
Qed.

(** Column-major accumulation holds the columns of the rows seen so far. *)
Lemma store_all_columns k ps : forall self seen,
  0 < k ->
  forallb (carries_rows k) ps = true ->
  qr_columnar self = true ->
  Forall (fun r => length r = k) seen ->
  qr_data self = transpose seen ->
  store_all self ps = inr (set_qr_data (transpose (seen ++ rows_of ps)) self).
Proof.
  induction ps as [|p ps IH]; intros self seen Hk Hps Hc Hseen Hdata.
  - simpl. unfold rows_of. simpl. rewrite app_nil_r, <- Hdata. by destruct self.
  - simpl in Hps. apply andb_prop in Hps as [Hp Hps].
    destruct (carries_rows_block _ _ Hp) as (b & Hb & Hne & Hrect).
    assert (Hrows : rows_of (p :: ps) = blk_data b ++ rows_of ps).
    { unfold rows_of. simpl. by rewrite Hb. }
    assert (Hstore : store self p =
                     inr (set_qr_data (transpose (seen ++ blk_data b)) self)).
    { unfold store. rewrite Hb, Hc. unfold blk_rows, get_columns.
      destruct (blk_data b) as [|r rows] eqn:Hd; [done|]. simpl negb. cbv iota.
      rewrite Hdata. destruct seen as [|s seen].
      - reflexivity.
      - assert (Hlen : length (transpose (s :: seen)) = k) by by apply length_transpose.
        destruct (transpose (s :: seen)) as [|col cols] eqn:Ht; [simpl in Hlen; lia|].
        cbn [truthy].
        pose proof (extend_columns_zip (transpose (r :: rows)) [] (col :: cols)) as Hz.
        cbn [length app] in Hz. rewrite Hz.
        + rewrite <- Ht, transpose_app by done. reflexivity.
        + simpl in Hlen. rewrite Hlen. by apply length_transpose. }
    simpl. rewrite Hstore.
    rewrite (IH _ (seen ++ blk_data b)); try done.
    + by rewrite set_qr_data_twice, Hrows, app_assoc.
    + by apply Forall_app.
Qed.

(** What one packet does to the captured schema. *)
Lemma store_columns_with_types self p self' :
  store self p = inr self' ->
  qr_columns_with_types self' =
  if truthy (qr_columns_with_types self) then qr_columns_with_types self
  else match packet_block p with
       | Some b => if names_columns b then blk_columns_with_types b else []
       | None => []
       end.
Proof.
  unfold store, names_columns. intros H.
  destruct (packet_block p) as [b|].
  - destruct (blk_rows b =? 0)%nat; simpl in H.
    + destruct (qr_columns_with_types self) as [|x l] eqn:Hc; simpl in H;
        inversion H; subst; simpl; [|done].
      by destruct (blk_columns_with_types b).
    + assert (qr_columns_with_types self' = qr_columns_with_types self) as ->.
      { repeat match type of H with
               | context [match ?x with _ => _ end] => destruct x
               end; inversion H; subst; reflexivity. }
      by destruct (qr_columns_with_types self).
  - inversion H; subst. by destruct (qr_columns_with_types self').
Qed.

Lemma store_all_keeps_schema ps : forall self self',
  truthy (qr_columns_with_types self) = true ->
  store_all self ps = inr self' ->
  qr_columns_with_types self' = qr_columns_with_types self.
Proof.
  induction ps as [|p ps IH]; intros self self' Ht H; simpl in H.
  - by inversion H.
  - destruct (store self p) as [e|s1] eqn:Hst; [discriminate|].
    apply store_columns_with_types in Hst. rewrite Ht in Hst.
    rewrite (IH s1 self'), Hst; try done. by rewrite Hst.
Qed.

Lemma store_all_first_schema ps : forall self self',
  qr_columns_with_types self = [] ->
  store_all self ps = inr self' ->
  qr_columns_with_types self' = first_schema ps.
Proof.
  induction ps as [|p ps IH]; intros self self' Hc H; simpl in H.
  - inversion H; subst. by rewrite Hc.
  - destruct (store self p) as [e|s1] eqn:Hst; [discriminate|].
    apply store_columns_with_types in Hst. rewrite Hc in Hst. simpl in Hst.
    unfold first_schema. simpl.
    destruct (packet_block p) as [b|]; simpl.
    + destruct (names_columns b) eqn:Hn.
      * assert (Ht : truthy (qr_columns_with_types s1) = true).
        { rewrite Hst. unfold names_columns in Hn. by apply andb_prop in Hn as [_ ?]. }
        simpl. by rewrite (store_all_keeps_schema _ _ _ Ht H).
      * by apply (IH s1).
    + by apply (IH s1).
Qed.

(** A zero-row block leaves the data as it is, and the schema too once one
    is held. *)
Lemma store_header self p b :
  packet_block p = Some b -> blk_rows b = 0 ->
  store self p =
  inr (if truthy (qr_columns_with_types self) then self
       else set_qr_columns_with_types (blk_columns_with_types b) self).
Proof.
  intros Hb Hr. unfold store. rewrite Hb, Hr. simpl.
  by destruct (truthy (qr_columns_with_types self)).
Qed.

(** ** Chunks *)

Section Chunks.
Context {A : Type}.
Implicit Types (l : list A).

Lemma chunks_from_nil fuel n : chunks_from fuel (@nil A) n = [].
Proof. destruct fuel; [reflexivity|]. simpl. by rewrite take_nil. Qed.

Lemma chunks_from_cons fuel l n :
  l <> [] -> 0 < n ->
  chunks_from (S fuel) l n = take n l :: chunks_from fuel (drop n l) n.
Proof.
  intros Hl Hn. simpl. destruct l as [|x l]; [done|].
  destruct n as [|n]; [lia|]. reflexivity.
Qed.

Lemma chunks_from_concat fuel : forall l n,
  0 < n -> length l <= fuel -> concat (chunks_from fuel l n) = l.
Proof.
  induction fuel as [|fuel IH]; intros l n Hn Hlen.
  - destruct l; [reflexivity|simpl in Hlen; lia].
  - destruct l as [|x l]; [by rewrite chunks_from_nil|].
    rewrite chunks_from_cons by done. simpl concat.
    rewrite IH, take_drop; [done|done|].
    rewrite length_drop. simpl in *. lia.
Qed.

Lemma chunks_from_length fuel : forall l n,
  0 < n -> length l <= fuel ->
  length (chunks_from fuel l n) = (length l + n - 1) / n.
Proof.
  induction fuel as [|fuel IH]; intros l n Hn Hlen.
  - destruct l; [|simpl in Hlen; lia]. simpl.
    symmetry. apply Nat.div_small. lia.
  - destruct l as [|x l].
    + rewrite chunks_from_nil. simpl. symmetry. apply Nat.div_small. lia.
    + rewrite chunks_from_cons by done. simpl length at 1.
      rewrite IH by (try rewrite length_drop; simpl in *; lia).
      rewrite length_drop.
      set (N := length (x :: l)). assert (0 < N) by (subst N; simpl; lia).
      destruct (Nat.le_gt_cases n N) as [Hge|Hlt].
      * replace (N + n - 1) with ((N - n + n - 1) + 1 * n) by lia.
        rewrite Nat.div_add by lia. lia.
      * replace (N - n + n - 1) with (n - 1) by lia.
        replace (N + n - 1) with ((N - 1) + 1 * n) by lia.
        rewrite Nat.div_add, !Nat.div_small by lia. lia.
Qed.

Lemma chunks_from_sizes fuel : forall l n,
  0 < n -> length l <= fuel -> l <> [] ->
  exists full last,
    chunks_from fuel l n = full ++ [last] /\
    Forall (fun chunk => length chunk = n) full /\
    length last = if (length l mod n =? 0)%nat then n else length l mod n.
Proof.
  induction fuel as [|fuel IH]; intros l n Hn Hlen Hl.
  - destruct l; [done|simpl in Hlen; lia].
  - rewrite chunks_from_cons by done.
    destruct (drop n l) as [|y rest] eqn:Hd.
    + exists [], (take n l). rewrite chunks_from_nil. repeat split; [constructor|].
      assert (Hle : length l <= n).
      { apply (f_equal length) in Hd. rewrite length_drop in Hd. simpl in Hd. lia. }
      rewrite take_ge by done.
      assert (0 < length l) by (destruct l; [done|simpl; lia]).
      destruct (Nat.eq_dec (length l) n) as [->|Hne].
      * by rewrite Nat.Div0.mod_same.
      * rewrite Nat.mod_small by lia.
        destruct (Nat.eqb_spec (length l) 0); [lia|done].
    + assert (Hlt : n < length l).
      { apply (f_equal length) in Hd. rewrite length_drop in Hd. simpl in Hd. lia. }
      destruct (IH (y :: rest) n) as (full & last & Heq & Hfull & Hlast); try done.
      { rewrite <- Hd, length_drop. lia. }
      exists (take n l :: full), last. rewrite Heq. repeat split.
      * constructor; [|done]. rewrite length_take. lia.
      * rewrite Hlast, <- Hd, length_drop.
        assert (Hmod : (length l - n) mod n = length l mod n).
        { rewrite <- (Nat.Div0.mod_add (length l - n) 1 n). f_equal. lia. }
        by rewrite Hmod.
Qed.

End Chunks.

(** ** Writing to the transport *)

Lemma forallb_take_add {A} (f : A -> bool) n m : forall l,
  forallb f (take (n + m) l) = forallb f (take n l) && forallb f (take m (drop n l)).
Proof.
  induction n as [|n IH]; intros [|x l]; simpl; try reflexivity.
  - by rewrite take_nil.
  - by rewrite IH, andb_assoc.
Qed.

Lemma wrote_wrote evs1 evs2 c : wrote evs2 (wrote evs1 c) = wrote (evs1 ++ evs2) c.
Proof.
  unfold wrote. simpl. f_equal.
  - by rewrite drop_drop, length_app.
  - by rewrite app_assoc.
Qed.

Lemma wrote_nil c : wrote [] c = c.
Proof. destruct c. unfold wrote. simpl. by rewrite app_nil_r. Qed.

Lemma quiet_add n evs c :
  quiet (length evs + n) c = quiet (length evs) c && quiet n (wrote evs c).
Proof. unfold quiet. simpl. apply forallb_take_add. Qed.

Lemma transport_call_quiet ev c :
  quiet 1 c = true -> transport_call ev c = (inr tt, wrote [ev] c).
Proof.
  unfold quiet, transport_call, wrote. simpl.
  destruct (faults c) as [|[e|] fs] eqn:Hf; simpl; try discriminate; intros _.
  - unfold log. simpl. by rewrite Hf.
  - reflexivity.
Qed.

Lemma quiet_reads n m rest c : quiet n (reads m rest c) = quiet n c.
Proof. reflexivity. Qed.

Lemma sent_blocks_app t u : sent_blocks (t ++ u) = sent_blocks t ++ sent_blocks u.
Proof. unfold sent_blocks. apply omap_app. Qed.

Lemma sent_blocks_send bs : sent_blocks (map EvSendData bs) = bs.
Proof.
  induction bs as [|b bs IH]; [reflexivity|].
  change (sent_blocks (map EvSendData (b :: bs))) with (b :: sent_blocks (map EvSendData bs)).
  by rewrite IH.
Qed.

Lemma sent_blocks_reads n : sent_blocks (replicate n EvReceivePacket) = [].
Proof. induction n; [reflexivity|assumption]. Qed.

(** ** The insert pipeline and [execute] *)

Section ClientProperties.
Variable escape_params : list (string * Value) -> PyException + list (string * string).
Variable percent_format : string -> list (string * string) -> PyException + string.
Variable Block_init_error : list ColumnSpec -> list Row -> bool -> option PyException.

Lemma send_data_loop_quiet sample_block types_check todo : forall c,
  quiet (length todo) c = true ->
  forallb (accepted Block_init_error (blk_columns_with_types sample_block) types_check) todo = true ->
  send_data_loop Block_init_error sample_block types_check todo c =
  (inr tt,
   wrote (map EvSendData (map (mkBlock (blk_columns_with_types sample_block)) todo)) c).
Proof.
  induction todo as [|chunk todo IH]; intros c Hq Hok.
  - simpl. by rewrite wrote_nil.
  - simpl in Hok. apply andb_prop in Hok as [Hchunk Hok].
    change (length (chunk :: todo)) with (length [EvSendData Block_empty] + length todo) in Hq.
    rewrite quiet_add in Hq. apply andb_prop in Hq as [Hq1 Hq].
    simpl. unfold bind, lift, Block_new.
    unfold accepted in Hchunk.
    destruct (Block_init_error _ chunk types_check); [discriminate|].
    unfold connection_send_data. rewrite transport_call_quiet by exact Hq1.
    rewrite IH; [by rewrite wrote_wrote|exact Hq|exact Hok].
Qed.

Lemma send_data_quiet sample_block data types_check c :
  quiet (S (length (chunks data (insert_block_size c)))) c = true ->
  forallb (accepted Block_init_error (blk_columns_with_types sample_block) types_check)
          (chunks data (insert_block_size c)) = true ->
  send_data Block_init_error sample_block data types_check c =
  (inr tt,
   wrote (map EvSendData
            (map (mkBlock (blk_columns_with_types sample_block))
                 (chunks data (insert_block_size c)) ++ [Block_empty])) c).
Proof.
  intros Hq Hok. unfold send_data, bind.
  set (todo := chunks data (insert_block_size c)) in *.
  set (evs := map EvSendData (map (mkBlock (blk_columns_with_types sample_block)) todo)).
  assert (Hlen : length evs = length todo) by (subst evs; by rewrite !length_map).
  replace (S (length todo)) with (length evs + 1) in Hq by lia.
  rewrite quiet_add in Hq. apply andb_prop in Hq as [Hq Hq1].
  rewrite Hlen in Hq.
  rewrite send_data_loop_quiet by done. fold evs.
  unfold connection_send_data. rewrite transport_call_quiet by exact Hq1.
  by rewrite wrote_wrote, map_app.
Qed.

Lemma send_query_and_tables query query_id settings external_tables types_check
    {A} (k : M A) c :
  quiet 2 c = true ->
  (connection_send_query query query_id settings ;;;
   connection_send_external_tables external_tables types_check ;;; k) c =
  k (wrote [EvSendQuery query query_id settings;
            EvSendExternalTables external_tables types_check] c).
Proof.
  intros Hq.
  change 2 with (length [EvSendQuery query query_id settings] + 1) in Hq.
  rewrite quiet_add in Hq. apply andb_prop in Hq as [Hq1 Hq2].
  unfold bind, connection_send_query, connection_send_external_tables.
  rewrite transport_call_quiet by exact Hq1.
  rewrite transport_call_quiet by exact Hq2.
  by rewrite wrote_wrote.
Qed.

Lemma receive_sample_block_cons r rest c :
  inbox c = r :: rest ->
  receive_sample_block c =
  (match r with
   | inl e => inl e
   | inr (PktData b) => inr (Some b)
   | inr (PktException e) => inl e
   | inr p => inl (UnexpectedPacketFromServerError "Data" (packet_type p))
   end, reads 1 rest c).
Proof.
  intros H. unfold receive_sample_block, bind.
  rewrite (connection_receive_packet_cons _ _ _ H).
  destruct r as [e|[]]; reflexivity.
Qed.

(** [execute] raises only from its handler, once the connection is forced. *)
Lemma execute_raises_from_handler self query params with_column_types external_tables
    query_id settings types_check columnar c e c' :
  quiet 1 c = true ->
  execute escape_params percent_format Block_init_error self query params
          with_column_types external_tables query_id settings types_check columnar c
  = (inl e, c') ->
  exists c'', c' = disconnected c''.
Proof.
  intros Hq. unfold execute, bind at 1, set_settings.
  unfold bind at 1, connection_force_connect, bind at 1.
  rewrite transport_call_quiet by exact Hq.
  unfold try_except.
  match goal with |- context [match ?m ?st with _ => _ end] => destruct (m st) as [[e1|r] c1] end.
  - unfold bind, connection_disconnect, raise. intros H; inversion H; subst.
    by exists c1.
  - discriminate.
Qed.

End ClientProperties.

(** * The claims about merging blocks *)

Lemma rows_of_rectangular k ps :
  forallb (carries_rows k) ps = true -> Forall (fun r => length r = k) (rows_of ps).
Proof.
  induction ps as [|p ps IH]; intros H; [constructor|].
  simpl in H. apply andb_prop in H as [Hp H].
  destruct (carries_rows_block _ _ Hp) as (b & Hb & _ & Hrect).
  unfold rows_of. simpl. rewrite Hb. apply Forall_app. split; [exact Hrect|by apply IH].
Qed.

(** C1. A stream of data-bearing packets whose blocks have at least one row
    and the same [k >= 1] columns, up to the end of the stream: accumulated
    with [columnar=True], the result read column-wise (transposed) is the
    list of rows that accumulating the same stream with [columnar=False]
    gives, which is the rows of the blocks in arrival order. *)
Theorem columnar_result_is_transposed_rows
    (k : nat) (ps : list Packet) (rest : list Reply) (c : Connection)
    (with_column_types : bool) :
  0 < k ->
  forallb (carries_rows k) ps = true ->
  inbox c = replies ps ++ inr PktEndOfStream :: rest ->
  exists by_columns by_rows,
    get_result (QueryResult_init GenSuspended with_column_types true) c =
      (inr (result_of by_columns, by_columns), reads (S (length ps)) rest c) /\
    get_result (QueryResult_init GenSuspended with_column_types false) c =
      (inr (result_of by_rows, by_rows), reads (S (length ps)) rest c) /\
    qr_data by_rows = rows_of ps /\
    transpose (qr_data by_columns) = qr_data by_rows.
Proof.
  intros Hk Hps Hin.
  pose proof (carries_rows_flowing _ _ Hps) as Hf.
  pose proof (store_all_columns k ps (QueryResult_init GenSuspended with_column_types true)
                [] Hk Hps eq_refl (List.Forall_nil _) eq_refl) as Hcols.
  pose proof (store_all_rows k ps (QueryResult_init GenSuspended with_column_types false)
                Hps eq_refl) as Hrows.
  simpl in Hcols, Hrows.
  exists (set_qr_packet_generator GenFinished
            (set_qr_data (transpose (rows_of ps))
               (QueryResult_init GenSuspended with_column_types true))),
         (set_qr_packet_generator GenFinished
            (set_qr_data (rows_of ps)
               (QueryResult_init GenSuspended with_column_types false))).
  split; [|split; [|split]].
  - by rewrite (get_result_end_of_stream ps rest c
                  (QueryResult_init GenSuspended with_column_types true) _
                  Hf Hin eq_refl Hcols).
  - by rewrite (get_result_end_of_stream ps rest c
                  (QueryResult_init GenSuspended with_column_types false) _
                  Hf Hin eq_refl Hrows).
  - reflexivity.
  - simpl. destruct (rows_of ps) as [|r rows] eqn:Hr; [reflexivity|].
    apply (transpose_transpose k); [done|done|].
    rewrite <- Hr. by apply rows_of_rectangular.
Qed.

(** C6, as the code has it. Header capture keeps the first schema that names
    a column: after any stream, a fresh accumulator holds the
    [columns_with_types] of the first zero-row block whose
    [columns_with_types] is not empty (and none when there is no such
    block). A zero-row block never changes the accumulated data, and changes
    nothing at all once a schema is held. *)
Theorem header_capture_keeps_first_named_schema
    (ps : list Packet) (self self' x : QueryResult) (q : Packet) (b : Block) :
  qr_columns_with_types self = [] ->
  store_all self ps = inr self' ->
  packet_block q = Some b ->
  blk_rows b = 0 ->
  qr_columns_with_types self' = first_schema ps /\
  exists x',
    store x q = inr x' /\
    qr_data x' = qr_data x /\
    (if truthy (qr_columns_with_types x) then x' = x
     else qr_columns_with_types x' = blk_columns_with_types b).
Proof.
  intros Hc Hs Hq Hb. split.
  - by apply (store_all_first_schema ps self).
  - rewrite (store_header x q b Hq Hb).
    destruct (truthy (qr_columns_with_types x)); eexists; repeat split.
Qed.

(** C6, as stated, fails: after a zero-row block without columns and a
    second zero-row block that names columns, the result holds the schema of
    the second block, not that of the first. *)
Lemma header_capture_second_block_wins :
  blk_rows ex_bare_header = 0 /\ blk_rows ex_header = 0 /\
  exists self' c',
    get_result (QueryResult_init GenSuspended true false)
               (ex_connection (replies ex_headers ++ [inr PktEndOfStream])) =
      (inr (RetDataColumns [] (blk_columns_with_types ex_header), self'), c') /\
    qr_columns_with_types self' <> blk_columns_with_types ex_bare_header.
Proof.
  split; [reflexivity|]. split; [reflexivity|].
  eexists _, _. split; [vm_compute; reflexivity|]. simpl. discriminate.
Qed.

(** * The claims about the insert pipeline *)

(** C2. [send_data] on [N] rows with block size [S > 0], on a transport whose
    writes succeed and with rows that the [Block] constructor accepts: the
    blocks written are one for each chunk, in order, then one empty block;
    there are [ceil(N / S)] chunks, all of [S] rows but the last, which has
    [N mod S] rows, or [S] when [S] divides [N]; and the rows of the chunks,
    put end to end, are the rows given. *)
Theorem send_data_chunks_rows
    (Block_init_error : list ColumnSpec -> list Row -> bool -> option PyException)
    (sample_block : Block) (data : list Row) (types_check : bool) (c : Connection) :
  0 < insert_block_size c ->
  quiet (S (length (chunks data (insert_block_size c)))) c = true ->
  forallb (accepted Block_init_error (blk_columns_with_types sample_block) types_check)
          (chunks data (insert_block_size c)) = true ->
  let size := insert_block_size c in
  let blocks := map (mkBlock (blk_columns_with_types sample_block)) (chunks data size) in
  let c_end := wrote (map EvSendData (blocks ++ [Block_empty])) c in
  send_data Block_init_error sample_block data types_check c = (inr tt, c_end) /\
  sent_blocks (trace c_end) = sent_blocks (trace c) ++ blocks ++ [Block_empty] /\
  length blocks = (length data + size - 1) / size /\
  concat (map blk_data blocks) = data /\
  match data with
  | [] => blocks = []
  | _ :: _ =>
      exists full last,
        blocks = full ++ [last] /\
        Forall (fun b => blk_rows b = size) full /\
        blk_rows last = if (length data mod size =? 0)%nat then size
                        else length data mod size
  end.
Proof.
  intros Hsize Hq Hok size blocks c_end. repeat split.
  - by apply send_data_quiet.
  - subst c_end. simpl. by rewrite sent_blocks_app, sent_blocks_send.
  - subst blocks. rewrite length_map. by apply chunks_from_length.
  - subst blocks. rewrite map_map. simpl. rewrite map_id.
    by apply chunks_from_concat.
  - destruct data as [|r data]; [reflexivity|].
    destruct (chunks_from_sizes (length (r :: data)) (r :: data) size)
      as (full & last & Heq & Hfull & Hlast); try done.
    exists (map (mkBlock (blk_columns_with_types sample_block)) full),
           (mkBlock (blk_columns_with_types sample_block) last).
    repeat split.
    + subst blocks. unfold chunks. by rewrite Heq, map_app.
    + apply Forall_map. exact Hfull.
    + exact Hlast.
Qed.

(** C8. The insert statement and the external tables are sent, and the first
    packet read is not a data packet: [process_insert_query] raises the
    server's error when it is an exception packet, and otherwise an
    unexpected-packet error that names [Data] and the kind received; no
    block is written, neither data nor the empty one. *)
Theorem insert_fails_without_sample_block
    (Block_init_error : list ColumnSpec -> list Row -> bool -> option PyException)
    (query_without_data : string) (data : list Row)
    (external_tables : option ExternalTables) (query_id : option string)
    (settings : Settings) (types_check : bool)
    (p : Packet) (rest : list Reply) (c : Connection) :
  quiet 2 c = true ->
  inbox c = inr p :: rest ->
  is_data p = false ->
  let c_end :=
    reads 1 rest
      (wrote [EvSendQuery query_without_data query_id settings;
              EvSendExternalTables external_tables types_check] c) in
  process_insert_query Block_init_error query_without_data data external_tables
                       query_id settings types_check c =
    (inl (match p with
          | PktException e => e
          | _ => UnexpectedPacketFromServerError "Data" (packet_type p)
          end), c_end) /\
  sent_blocks (trace c_end) = sent_blocks (trace c).
Proof.
  intros Hq Hin Hp c_end. split.
  - unfold process_insert_query. rewrite send_query_and_tables by exact Hq.
    unfold bind. erewrite receive_sample_block_cons by exact Hin.
    destruct p; try reflexivity. discriminate Hp.
  - subst c_end. cbn [trace reads wrote]. rewrite !sent_blocks_app.
    change (sent_blocks (replicate 1 EvReceivePacket)) with (@nil Block).
    change (sent_blocks [EvSendQuery query_without_data query_id settings;
                         EvSendExternalTables external_tables types_check])
      with (@nil Block).
    by rewrite !app_nil_r.
Qed.

(** C10. An insert of no rows, on a transport whose writes succeed and that
    answers the statement with a sample block: no data block is written, the
    empty block is written once, and the acknowledgement is then read; the
    call raises the error of that packet if it carries one (or the transport
    error of the read), and returns otherwise. *)
Theorem empty_insert_sends_only_the_sentinel
    (Block_init_error : list ColumnSpec -> list Row -> bool -> option PyException)
    (query_without_data : string)
    (external_tables : option ExternalTables) (query_id : option string)
    (settings : Settings) (types_check : bool)
    (sample_block : Block) (ack : Reply) (rest : list Reply) (c : Connection) :
  quiet 3 c = true ->
  inbox c = inr (PktData sample_block) :: ack :: rest ->
  exists c_end,
    process_insert_query Block_init_error query_without_data [] external_tables
                         query_id settings types_check c =
      (match ack with
       | inl e => inl e
       | inr packet =>
           match packet_exception packet with
           | Some e => inl e
           | None => inr RetNone
           end
       end, c_end) /\
    trace c_end =
      trace c ++ [EvSendQuery query_without_data query_id settings;
                  EvSendExternalTables external_tables types_check;
                  EvReceivePacket; EvSendData Block_empty; EvReceivePacket] /\
    sent_blocks (trace c_end) = sent_blocks (trace c) ++ [Block_empty] /\
    inbox c_end = rest.
Proof.
  intros Hq Hin.
  set (sent := [EvSendQuery query_without_data query_id settings;
                EvSendExternalTables external_tables types_check]).
  change 3 with (length sent + 1) in Hq.
  rewrite quiet_add in Hq. apply andb_prop in Hq as [Hq2 Hq1].
  set (c1 := reads 1 (ack :: rest) (wrote sent c)).
  set (c2 := wrote [EvSendData Block_empty] c1).
  exists (reads 1 rest c2). split; [|split; [|split]].
  - unfold process_insert_query. rewrite send_query_and_tables by exact Hq2.
    unfold bind at 1. erewrite receive_sample_block_cons by exact Hin.
    fold sent. fold c1. cbn [packet_block].
    unfold bind at 1.
    rewrite (send_data_quiet Block_init_error sample_block [] types_check c1)
      by reflexivity || exact Hq1.
    unfold bind. cbn [chunks chunks_from length map app]. fold c2.
    rewrite (connection_receive_packet_cons ack rest c2) by reflexivity.
    destruct ack as [e|packet]; [reflexivity|].
    by destruct (packet_exception packet).
  - simpl. by rewrite <- !app_assoc.
  - subst c2 c1. cbn [trace reads wrote]. rewrite !sent_blocks_app.
    change (sent_blocks (replicate 1 EvReceivePacket)) with (@nil Block).
    change (sent_blocks sent) with (@nil Block).
    change (sent_blocks [EvSendData Block_empty]) with [Block_empty].
    by rewrite !app_nil_r.
  - reflexivity.
Qed.

(** * The claims about [execute] *)

(** C4, as the code has it. [execute] installs the settings and calls
    [force_connect()]. Once that has returned, an exception raised anywhere
    in the [try:] block, on the insert path or on the query path, is caught
    by the handler: [disconnect()] is called on the connection as the block
    left it, as the last call made on it, and then that same exception is
    raised to the caller; a value returned by the block is returned with the
    connection untouched. An exception raised by [force_connect()] itself is
    raised to the caller as it is, and [execute] does not call
    [disconnect()]. *)
Theorem execute_disconnects_before_reraising
    (escape_params : list (string * Value) -> PyException + list (string * string))
    (percent_format : string -> list (string * string) -> PyException + string)
    (Block_init_error : list ColumnSpec -> list Row -> bool -> option PyException)
    (self : Client) (query : string) (params : Params) (with_column_types : bool)
    (external_tables : option ExternalTables) (query_id : option string)
    (settings : option Settings) (types_check columnar : bool) (c : Connection) :
  let query_settings := dict_update (client_settings self) (default [] settings) in
  let try_block :=
    match is_list_or_tuple params with
    | Some data =>
        process_insert_query Block_init_error query data external_tables query_id
                             query_settings types_check
    | None =>
        process_ordinary_query escape_params percent_format query params
          with_column_types external_tables query_id query_settings types_check columnar
    end in
  let run :=
    execute escape_params percent_format Block_init_error self query params
            with_column_types external_tables query_id settings types_check columnar c in
  match connection_force_connect (set_context_settings query_settings c) with
  | (inl e, c1) =>
      run = (inl e, c1) /\
      disconnects (trace c1) = disconnects (trace c)
  | (inr _, c1) =>
      match try_block c1 with
      | (inl e, c2) =>
          run = (inl e, disconnected c2) /\
          connected (disconnected c2) = false /\
          last (trace (disconnected c2)) = Some EvDisconnect /\
          disconnects (trace (disconnected c2)) = S (disconnects (trace c2))
      | (inr r, c2) => run = (inr r, c2)
      end
  end.
Proof.
  intros query_settings try_block run.
  assert (Hrun : run =
    match connection_force_connect (set_context_settings query_settings c) with
    | (inl e, c1) => (inl e, c1)
    | (inr _, c1) =>
        match try_block c1 with
        | (inl e, c2) => (inl e, disconnected c2)
        | (inr r, c2) => (inr r, c2)
        end
    end) by reflexivity.
  rewrite Hrun. clear Hrun.
  destruct (connection_force_connect (set_context_settings query_settings c))
    as [[e|[]] c1] eqn:Hconnect.
  - split; [reflexivity|].
    unfold connection_force_connect, bind, transport_call in Hconnect.
    simpl in Hconnect.
    destruct (faults c) as [|[e'|] fs]; inversion Hconnect; subst; simpl.
    rewrite disconnects_app. unfold disconnects at 2. simpl. lia.
  - destruct (try_block c1) as [[e|r] c2]; [|reflexivity].
    split; [reflexivity|]. split; [reflexivity|]. split.
    + simpl. apply last_snoc.
    + apply disconnects_disconnected.
Qed.

(** C4, as stated, fails: when [force_connect] itself raises, [execute]
    raises that error and [disconnect()] is not called. *)
Lemma execute_failed_connect_is_not_disconnected :
  exists c',
    execute ex_escape_params ex_percent_format ex_Block_init_error ex_client
            "SELECT 1" ParamsNone false None None None false false ex_connection_down
    = (inl (NetworkError "Connection refused"), c') /\
    trace c' = [EvForceConnect] /\
    disconnects (trace c') = 0.
Proof. eexists. split; [vm_compute; reflexivity|]. split; reflexivity. Qed.

(** C9, as the code has it. [execute] with [params] that is neither absent,
    nor a list or a tuple, nor a dict, on a transport that lets
    [force_connect] through: the call raises [ValueError('Parameters are
    expected in dict form')]; the calls made on the connection are
    [force_connect()] before it and the [disconnect()] of the handler:
    nothing is sent and nothing is read. *)
Theorem non_mapping_params_fail_before_the_query_is_sent
    (escape_params : list (string * Value) -> PyException + list (string * string))
    (percent_format : string -> list (string * string) -> PyException + string)
    (Block_init_error : list ColumnSpec -> list Row -> bool -> option PyException)
    (self : Client) (query repr : string) (with_column_types : bool)
    (external_tables : option ExternalTables) (query_id : option string)
    (settings : option Settings) (types_check columnar : bool) (c : Connection) :
  quiet 1 c = true ->
  exists c_end,
    execute escape_params percent_format Block_init_error self query (ParamsOther repr)
            with_column_types external_tables query_id settings types_check columnar c
    = (inl (ValueError "Parameters are expected in dict form"), c_end) /\
    trace c_end = trace c ++ [EvForceConnect; EvDisconnect] /\
    inbox c_end = inbox c.
Proof.
  intros Hq. eexists. split.
  - unfold execute, bind at 1, set_settings.
    unfold bind at 1, connection_force_connect, bind at 1.
    rewrite transport_call_quiet by exact Hq.
    reflexivity.
  - split; [|reflexivity]. simpl. by rewrite <- app_assoc.
Qed.

(** C9, as stated, fails: the call has reached the transport before it
    raises ([force_connect()] is in the trace, ahead of the handler's
    [disconnect()]), and on a connection that cannot be forced it raises the
    transport's error instead. *)
Lemma non_mapping_params_fail_after_force_connect :
  trace (ex_connection []) = [] /\
  (exists c',
     execute ex_escape_params ex_percent_format ex_Block_init_error ex_client
             "SELECT %(x)s" (ParamsOther "42") false None None None false false
             (ex_connection [])
     = (inl (ValueError "Parameters are expected in dict form"), c') /\
     trace c' = [EvForceConnect; EvDisconnect]) /\
  (exists c',
     execute ex_escape_params ex_percent_format ex_Block_init_error ex_client
             "SELECT %(x)s" (ParamsOther "42") false None None None false false
             ex_connection_down
     = (inl (NetworkError "Connection refused"), c')).
Proof.
  split; [reflexivity|]. split.
  - eexists. split; [vm_compute; reflexivity|reflexivity].
  - eexists. vm_compute; reflexivity.
Qed.

(** * The claims on the sample data *)

Lemma columnar_result_is_transposed_rows_witness :
  0 < 2 /\
  forallb (carries_rows 2) ex_data_packets = true /\
  exists by_columns by_rows,
    get_result (QueryResult_init GenSuspended false true) ex_data_stream =
      (inr (result_of by_columns, by_columns), reads 3 [] ex_data_stream) /\
    get_result (QueryResult_init GenSuspended false false) ex_data_stream =
      (inr (result_of by_rows, by_rows), reads 3 [] ex_data_stream) /\
    qr_data by_rows = rows_of ex_data_packets /\
    transpose (qr_data by_columns) = qr_data by_rows.
Proof.
  split; [lia|]. split; [reflexivity|].
  apply (columnar_result_is_transposed_rows 2 ex_data_packets [] ex_data_stream false);
    [lia|reflexivity|reflexivity].
Defined.

Lemma send_data_chunks_rows_witness :
  sent_blocks
    (trace (snd (send_data ex_Block_init_error ex_header ex_rows false (ex_connection []))))
  = [mkBlock ex_columns [[VInt 1]; [VInt 2]];
     mkBlock ex_columns [[VInt 3]; [VInt 4]];
     mkBlock ex_columns [[VInt 5]];
     Block_empty] /\
  length (map (mkBlock ex_columns) (chunks ex_rows 2)) = (5 + 2 - 1) / 2.
Proof.
  destruct (send_data_chunks_rows ex_Block_init_error ex_header ex_rows false
              (ex_connection []))
    as (Hrun & Hsent & Hcount & _); [simpl; lia|reflexivity|reflexivity|].
  split.
  - rewrite Hrun. exact Hsent.
  - exact Hcount.
Defined.

Lemma exception_packet_aborts_witness :
  forallb flowing ex_packets = true /\
  store_all ex_fresh ex_packets = inr ex_merged /\
  get_result ex_fresh ex_stream_exception =
    (inl ex_error, disconnected (reads 7 ex_tail ex_stream_exception)) /\
  iterate ex_progress_fresh ex_stream_exception =
    (inl ex_error, disconnected (reads 7 ex_tail ex_stream_exception)) /\
  progress_get_result ex_progress_fresh ex_stream_exception =
    (inl ex_error, disconnected (reads 7 ex_tail ex_stream_exception)) /\
  inbox (disconnected (reads 7 ex_tail ex_stream_exception)) = ex_tail /\
  disconnects (trace (disconnected (reads 7 ex_tail ex_stream_exception))) =
    S (disconnects (trace ex_stream_exception)).
Proof.
  split; [reflexivity|]. split; [reflexivity|].
  apply (exception_packet_aborts_and_disconnects_once
           ex_packets ex_error ex_tail ex_stream_exception
           ex_fresh ex_merged ex_progress_fresh ex_merged); reflexivity.
Defined.

Lemma execute_disconnects_witness :
  fst ex_failed_query = inl ex_error /\
  connected (snd ex_failed_query) = false /\
  last (trace (snd ex_failed_query)) = Some EvDisconnect.
Proof.
  pose proof (execute_disconnects_before_reraising
                ex_escape_params ex_percent_format ex_Block_init_error ex_client
                "SELECT id, name FROM t" ParamsNone true None None None false false
                ex_stream_exception) as H.
  cbv zeta in H.
  match type of H with
  | match ?connect with _ => _ end =>
      let v := eval vm_compute in connect in
      assert (Hconnect : connect = v) by (vm_compute; reflexivity);
      rewrite Hconnect in H; clear Hconnect
  end.
  match type of H with
  | match ?block with _ => _ end =>
      let v := eval vm_compute in block in
      assert (Hblock : block = v) by (vm_compute; reflexivity);
      rewrite Hblock in H; clear Hblock
  end.
  destruct H as (Hrun & Hconnected & Hlast & _).
  unfold ex_failed_query. rewrite Hrun. repeat split; assumption.
Defined.

Lemma progress_totals_witness :
  iterate (ProgressQueryResult_init GenSuspended true false) ex_stream_end =
    (inr ([(2, 3); (3, 3)]%Z,
          mkProgressQueryResult (set_qr_packet_generator GenFinished ex_merged)
                                (mkProgress 3 30 3)),
     reads 7 ex_tail ex_stream_end) /\
  length (running_totals (progress_packets ex_packets)) = 2.
Proof.
  apply (progress_totals_are_exact_sums ex_packets ex_tail ex_stream_end true false
                                        ex_merged); reflexivity.
Defined.

Lemma header_capture_witness :
  store_all ex_fresh ex_headers = inr ex_with_schema /\
  qr_columns_with_types ex_with_schema = first_schema ex_headers /\
  exists x',
    store ex_merged (PktData ex_bare_header) = inr x' /\
    qr_data x' = qr_data ex_merged /\
    (if truthy (qr_columns_with_types ex_merged) then x' = ex_merged
     else qr_columns_with_types x' = blk_columns_with_types ex_bare_header).
Proof.
  split; [reflexivity|].
  apply (header_capture_keeps_first_named_schema
           ex_headers ex_fresh ex_with_schema ex_merged
           (PktData ex_bare_header) ex_bare_header); reflexivity.
Defined.

Lemma end_of_stream_witness :
  store_all ex_fresh (List.filter surfaced ex_packets) = inr ex_merged /\
  drain GenSuspended ex_stream_end =
    (inr ([PktData ex_header; PktProgress 2 20 3; PktData ex_block1;
           PktProgress 1 10 0; PktData ex_block2], GenFinished),
     reads 7 ex_tail ex_stream_end) /\
  get_result ex_fresh ex_stream_end =
    (inr (result_of ex_merged, set_qr_packet_generator GenFinished ex_merged),
     reads 7 ex_tail ex_stream_end) /\
  disconnects (trace (reads 7 ex_tail ex_stream_end)) = 0.
Proof.
  split; [reflexivity|].
  destruct (end_of_stream_terminates ex_packets ex_tail ex_stream_end
              ex_fresh ex_merged ex_progress_fresh ex_merged)
    as (Hdrain & _ & Hget & _ & _ & _ & Hdisc); try reflexivity.
  split; [exact Hdrain|]. split; [exact Hget|exact Hdisc].
Defined.

Lemma insert_fails_without_sample_block_witness :
  quiet 2 ex_insert_refused = true /\
  is_data PktEndOfStream = false /\
  process_insert_query ex_Block_init_error "INSERT INTO t VALUES" ex_rows
                       None None [] false ex_insert_refused =
    (inl (UnexpectedPacketFromServerError "Data" END_OF_STREAM),
     reads 1 [] (wrote [EvSendQuery "INSERT INTO t VALUES" None [];
                        EvSendExternalTables None false] ex_insert_refused)) /\
  sent_blocks
    (trace (reads 1 [] (wrote [EvSendQuery "INSERT INTO t VALUES" None [];
                               EvSendExternalTables None false] ex_insert_refused))) =
    sent_blocks (trace ex_insert_refused).
Proof.
  split; [reflexivity|]. split; [reflexivity|].
  apply (insert_fails_without_sample_block ex_Block_init_error "INSERT INTO t VALUES"
           ex_rows None None [] false PktEndOfStream [] ex_insert_refused); reflexivity.
Defined.

Lemma non_mapping_params_witness :
  quiet 1 (ex_connection []) = true /\
  exists c_end,
    execute ex_escape_params ex_percent_format ex_Block_init_error ex_client
            "SELECT %(x)s" (ParamsOther "42") false None None None false false
            (ex_connection [])
    = (inl (ValueError "Parameters are expected in dict form"), c_end) /\
    trace c_end = trace (ex_connection []) ++ [EvForceConnect; EvDisconnect] /\
    inbox c_end = inbox (ex_connection []).
Proof.
  split; [reflexivity|].
  apply (non_mapping_params_fail_before_the_query_is_sent
           ex_escape_params ex_percent_format ex_Block_init_error ex_client
           "SELECT %(x)s" "42" false None None None false false (ex_connection []));
    reflexivity.
Defined.

Lemma empty_insert_witness :
  quiet 3 ex_insert_accepted = true /\
  exists c_end,
    process_insert_query ex_Block_init_error "INSERT INTO t VALUES" [] None None []
                         false ex_insert_accepted = (inr RetNone, c_end) /\
    trace c_end =
      trace ex_insert_accepted ++
      [EvSendQuery "INSERT INTO t VALUES" None []; EvSendExternalTables None false;
       EvReceivePacket; EvSendData Block_empty; EvReceivePacket] /\
    sent_blocks (trace c_end) = sent_blocks (trace ex_insert_accepted) ++ [Block_empty] /\
    inbox c_end = [].
Proof.
  split; [reflexivity|].
  apply (empty_insert_sends_only_the_sentinel ex_Block_init_error "INSERT INTO t VALUES"
           None None [] false ex_header (inr PktEndOfStream) [] ex_insert_accepted);
    reflexivity.
Defined.

(** * More of [client.py] *)

(** ** [QueryResult.store] *)

Lemma extend_columns_spec columns : forall done todo,
  extend_columns (length done) columns (done ++ todo) =
  if (length columns <=? length todo)%nat then
    inr (done ++ zip_with app todo columns ++ drop (length columns) todo)
  else inl (IndexError "list index out of range").
Proof.
  induction columns as [|column columns IH]; intros done todo.
  - simpl. by destruct todo.
  - destruct todo as [|d todo].
    + simpl. rewrite app_nil_r, lookup_ge_None_2 by lia. reflexivity.
    + simpl. rewrite list_lookup_middle by reflexivity.
      rewrite insert_app_r_alt, Nat.sub_diag by lia. simpl.
      specialize (IH (done ++ [d ++ column]) todo).
      rewrite length_app, Nat.add_1_r, <- !app_assoc in IH. simpl in IH.
      rewrite IH. destruct (length columns <=? length todo)%nat; reflexivity.
Qed.

(** [store] with [columnar=True], on a block with rows once the aggregate
    holds columns: the columns of the block are appended to the leading
    columns of the aggregate, one for one; when the block has fewer columns
    the remaining columns of the aggregate stay as they are, and when it has
    more the call raises [IndexError]. *)
Theorem store_columnar_by_column_count (self : QueryResult) (p : Packet) (b : Block) :
  packet_block p = Some b ->
  (blk_rows b =? 0)%nat = false ->
  qr_columnar self = true ->
  truthy (qr_data self) = true ->
  store self p =
  if (length (get_columns b) <=? length (qr_data self))%nat then
    inr (set_qr_data (zip_with app (qr_data self) (get_columns b) ++
                      drop (length (get_columns b)) (qr_data self)) self)
  else inl (IndexError "list index out of range").
Proof.
  intros Hb Hrows Hc Hdata. unfold store. rewrite Hb, Hrows, Hc, Hdata. simpl.
  pose proof (extend_columns_spec (get_columns b) [] (qr_data self)) as H.
  cbn [length app] in H. rewrite H.
  by destruct (length (get_columns b) <=? length (qr_data self))%nat.
Qed.

Lemma store_row_major self p :
  qr_columnar self = false ->
  exists self',
    store self p = inr self' /\
    qr_columnar self' = false /\
    qr_data self' = qr_data self ++ from_option get_rows [] (packet_block p).
Proof.
  intros Hc. unfold store. destruct (packet_block p) as [b|]; simpl.
  - unfold blk_rows, get_rows. rewrite Hc.
    destruct (blk_data b) as [|r rows] eqn:Hd; simpl.
    + destruct (truthy (qr_columns_with_types self)); eexists; repeat split;
        simpl; by rewrite ?app_nil_r.
    + eexists; repeat split; done.
  - eexists; repeat split; [done|]. by rewrite app_nil_r.
Qed.

Lemma store_flags self p self' :
  store self p = inr self' ->
  qr_with_column_types self' = qr_with_column_types self /\
  qr_columnar self' = qr_columnar self.
Proof.
  destruct self as [g w d cwt col]. unfold store. simpl. intros H.
  repeat match type of H with
         | context [match ?x with _ => _ end] => destruct x
         end; inversion H; subst; split; reflexivity.
Qed.

Lemma store_all_flags ps : forall self self',
  store_all self ps = inr self' ->
  qr_with_column_types self' = qr_with_column_types self /\
  qr_columnar self' = qr_columnar self.
Proof.
  induction ps as [|p ps IH]; intros self self' H; simpl in H.
  - by inversion H.
  - destruct (store self p) as [e|s1] eqn:Hst; [discriminate|].
    destruct (store_flags _ _ _ Hst) as [Hw Hc].
    destruct (IH _ _ H) as [Hw' Hc']. split; congruence.
Qed.

Lemma store_all_row_major ps : forall self,
  qr_columnar self = false ->
  exists self',
    store_all self ps = inr self' /\
    qr_data self' = qr_data self ++ rows_of ps.
Proof.
  induction ps as [|p ps IH]; intros self Hc.
  - exists self. split; [done|]. unfold rows_of. simpl. by rewrite app_nil_r.
  - destruct (store_row_major self p Hc) as (s1 & Hs1 & Hc1 & Hd1).
    destruct (IH s1 Hc1) as (s2 & Hs2 & Hd2).
    exists s2. simpl. rewrite Hs1. split; [done|].
    rewrite Hd2, Hd1. unfold rows_of. simpl. by rewrite app_assoc.
Qed.

Lemma store_all_fresh_row_major
    (ps : list Packet) (packet_generator : Generator) (with_column_types : bool) :
  store_all (QueryResult_init packet_generator with_column_types false) ps =
  inr (mkQueryResult packet_generator with_column_types (rows_of ps) (first_schema ps) false).
Proof.
  set (fresh := QueryResult_init packet_generator with_column_types false).
  destruct (store_all_row_major ps fresh eq_refl) as (s & Hs & Hd).
  rewrite Hs. f_equal.
  pose proof (store_all_first_schema ps fresh s eq_refl Hs) as Hschema.
  pose proof (store_all_generator ps fresh s Hs) as Hg.
  destruct (store_all_flags ps fresh s Hs) as [Hw Hc].
  destruct s; simpl in *; subst; reflexivity.
Qed.

(** With [columnar=False] merging never raises, whatever the packets are:
    the data are the rows of all blocks in arrival order, and a fresh
    accumulator ends with the first schema that names a column. *)
Theorem row_major_accumulation_never_raises
    (ps : list Packet) (packet_generator : Generator) (with_column_types : bool) :
  store_all (QueryResult_init packet_generator with_column_types false) ps =
  inr (mkQueryResult packet_generator with_column_types (rows_of ps) (first_schema ps) false).
Proof. apply store_all_fresh_row_major. Qed.

(** ** Errors while the stream is read *)

(** A transport error while the stream is read, after any packets that do
    not end it: eager accumulation and progress iteration raise that error
    itself, [disconnect()] is called once, and what the transport holds
    after the failed read is left there. *)
Theorem transport_error_aborts_and_disconnects_once
    (ps : list Packet) (e : PyException) (rest : list Reply) (c : Connection)
    (self self' : QueryResult) (pself : ProgressQueryResult) (pbase' : QueryResult) :
  forallb flowing ps = true ->
  inbox c = replies ps ++ inl e :: rest ->
  qr_packet_generator self = GenSuspended ->
  store_all self ps = inr self' ->
  qr_packet_generator (pqr_base pself) = GenSuspended ->
  store_all (pqr_base pself) ps = inr pbase' ->
  let c_end := disconnected (reads (S (length ps)) rest c) in
  get_result self c = (inl e, c_end) /\
  iterate pself c = (inl e, c_end) /\
  disconnects (trace c_end) = S (disconnects (trace c)).
Proof.
  intros Hf Hin Hg Hs Hpg Hps c_end. repeat split.
  - unfold get_result, bind.
    rewrite (get_result_loop_stream ps self self' c _ Hf Hg Hin Hs).
    erewrite get_result_loop_cons; [|by rewrite (store_all_generator _ _ _ Hs)|reflexivity].
    by rewrite reads_reads, Nat.add_1_r.
  - unfold iterate.
    rewrite (iterate_loop_stream ps [] pself pbase' c _ Hf Hpg Hin Hps).
    erewrite iterate_loop_cons;
      [|simpl; by rewrite (store_all_generator _ _ _ Hps)|reflexivity].
    by rewrite reads_reads, Nat.add_1_r.
  - subst c_end. by rewrite disconnects_disconnected, disconnects_reads.
Qed.

(** A block that cannot be merged (column-major, more columns than the
    aggregate): [get_result] raises the error of [store] at that packet; the
    generator is not told, so [disconnect()] is not called and the
    connection stays as the reads left it. *)
Theorem merge_error_does_not_disconnect
    (ps : list Packet) (p : Packet) (e : PyException) (rest : list Reply)
    (c : Connection) (self self1 : QueryResult) :
  forallb flowing ps = true ->
  inbox c = replies ps ++ inr p :: rest ->
  qr_packet_generator self = GenSuspended ->
  store_all self ps = inr self1 ->
  store self1 p = inl e ->
  let c_end := reads (S (length ps)) rest c in
  get_result self c = (inl e, c_end) /\
  connected c_end = connected c /\
  disconnects (trace c_end) = disconnects (trace c).
Proof.
  intros Hf Hin Hg Hs He c_end. repeat split.
  - unfold get_result, bind.
    rewrite (get_result_loop_stream ps self self1 c _ Hf Hg Hin Hs).
    erewrite get_result_loop_cons; [|by rewrite (store_all_generator _ _ _ Hs)|reflexivity].
    rewrite reads_reads, Nat.add_1_r. fold c_end.
    destruct p; try (by rewrite He); simpl in He; discriminate He.
  - subst c_end. apply disconnects_reads.
Qed.

(** ** After the stream has been read *)

Lemma generator_next_stop g c g' c' :
  generator_next g c = (inr (None, g'), c') -> g' = GenFinished.
Proof.
  destruct g; simpl.
  - unfold bind. destruct (while_true packet_generator_body tt c) as [[e|[p|]] c1];
      unfold ret; intros H; inversion H; reflexivity.
  - unfold ret. intros H; inversion H; reflexivity.
Qed.

Lemma get_result_loop_ends_finished fuel : forall self c self' c',
  repeat_until fuel get_result_body self c = (inr self', c') ->
  qr_packet_generator self' = GenFinished.
Proof.
  induction fuel as [|fuel IH]; intros self c self' c' H; [discriminate|].
  simpl in H. unfold get_result_body at 1, bind in H.
  destruct (generator_next (qr_packet_generator self) c) as [[e|[[p|] g]] c1] eqn:Hn;
    simpl in H; try discriminate.
  - unfold lift in H. destruct (store _ p) as [e|s1]; [discriminate|].
    simpl in H. by apply IH in H.
  - inversion H; subst. simpl. by apply generator_next_stop in Hn.
Qed.

(** Once [get_result] has returned, the generator is finished: calling
    [get_result] again returns the same value and reads nothing, whatever
    the transport holds. *)
Theorem get_result_again_reads_nothing
    (self : QueryResult) (c : Connection) (r : Returned) (self' : QueryResult)
    (c' c2 : Connection) :
  get_result self c = (inr (r, self'), c') ->
  qr_packet_generator self' = GenFinished /\
  get_result self' c2 = (inr (r, self'), c2).
Proof.
  unfold get_result, bind. intros H.
  destruct (while_true get_result_body self c) as [[e|s1] c1] eqn:Hloop; [discriminate|].
  unfold ret in H. inversion H; subst.
  apply get_result_loop_ends_finished in Hloop.
  split; [exact Hloop|]. by rewrite get_result_loop_finished.
Qed.

Lemma next_stop_finished fuel : forall self c self' c',
  repeat_until fuel next_body self c = (inr (None, self'), c') ->
  qr_packet_generator (pqr_base self') = GenFinished.
Proof.
  induction fuel as [|fuel IH]; intros self c self' c' H; [discriminate|].
  simpl in H. unfold next_body at 1, bind in H.
  destruct (generator_next _ c) as [[e|[[p|] g]] c1] eqn:Hn; simpl in H; try discriminate.
  - destruct (packet_progress p); [discriminate|].
    unfold lift in H. destruct (store _ p) as [e|s1]; [discriminate|].
    simpl in H. by apply IH in H.
  - inversion H; subst. simpl. by apply generator_next_stop in Hn.
Qed.

Lemma iterate_loop_ends_finished fuel : forall st c items self' c',
  repeat_until fuel iterate_body st c = (inr (items, self'), c') ->
  qr_packet_generator (pqr_base self') = GenFinished.
Proof.
  induction fuel as [|fuel IH]; intros [acc self] c items self' c' H; [discriminate|].
  simpl in H. unfold iterate_body at 1, bind in H. cbn [fst snd] in H.
  destruct (next self c) as [[e|[[item|] s1]] c1] eqn:Hn; simpl in H; try discriminate.
  - by apply IH in H.
  - inversion H; subst. unfold next, while_true in Hn. by apply next_stop_finished in Hn.
Qed.

(** Once an iteration over the progress result has ended, the iterator is
    exhausted: a further [next] stops at once and reads nothing, and
    iterating again yields nothing. *)
Theorem exhausted_iterator_stays_exhausted
    (self : ProgressQueryResult) (c : Connection) (items : list (Z * Z))
    (self' : ProgressQueryResult) (c' c2 : Connection) :
  iterate self c = (inr (items, self'), c') ->
  next self' c2 = (inr (None, self'), c2) /\
  iterate self' c2 = (inr ([], self'), c2).
Proof.
  unfold iterate at 1, while_true. intros H.
  apply iterate_loop_ends_finished in H.
  assert (Hn : next self' c2 = (inr (None, self'), c2)) by by apply next_finished.
  split; [exact Hn|].
  unfold iterate. rewrite (while_true_unfold _ iterate_body_consuming).
  unfold iterate_body, bind. cbn [fst snd]. by rewrite Hn.
Qed.

(** ** One advance of the progress iterator *)

Lemma next_over_silent ds : forall self base' c tail,
  forallb merged_silently ds = true ->
  qr_packet_generator (pqr_base self) = GenSuspended ->
  inbox c = replies ds ++ tail ->
  store_all (pqr_base self) ds = inr base' ->
  next self c =
  next (mkProgressQueryResult base' (progress_totals self)) (reads (length ds) tail c).
Proof.
  induction ds as [|p ds IH]; intros self base' c tail Hf Hg Hin Hs.
  - simpl in *. inversion Hs; subst. rewrite reads_0. by destruct self.
  - simpl in Hf. apply andb_prop in Hf as [Hp Hf]. simpl in Hin, Hs.
    rewrite (next_cons _ _ _ _ Hg Hin).
    destruct (store (pqr_base self) p) as [e|s1] eqn:Hst; [discriminate|].
    assert (Hg1 : qr_packet_generator s1 = GenSuspended).
    { by rewrite (store_generator _ _ _ Hst). }
    destruct p; try discriminate Hp.
    1-3: erewrite IH; [rewrite reads_reads; reflexivity|done..].
    inversion Hst; subst s1.
    erewrite IH; [rewrite reads_reads; reflexivity|done..].
Qed.

(** One advance of the iterator merges the data, totals and extremes
    packets up to the next progress packet, adds its counters to the totals
    and yields the new [(rows, total_rows)]; it reads up to that packet and
    no further. *)
Theorem next_reads_up_to_the_progress_packet
    (ds : list Packet) (rows bytes total_rows : Z) (rest : list Reply)
    (c : Connection) (self : ProgressQueryResult) (base' : QueryResult) :
  forallb merged_silently ds = true ->
  qr_packet_generator (pqr_base self) = GenSuspended ->
  inbox c = replies ds ++ inr (PktProgress rows bytes total_rows) :: rest ->
  store_all (pqr_base self) ds = inr base' ->
  next self c =
  (inr (Some ((pg_rows (progress_totals self) + rows)%Z,
              (pg_total_rows (progress_totals self) + total_rows)%Z),
        mkProgressQueryResult base'
          (add_progress (progress_totals self) (mkProgress rows bytes total_rows))),
   reads (S (length ds)) rest c).
Proof.
  intros Hf Hg Hin Hs.
  rewrite (next_over_silent ds self base' c _ Hf Hg Hin Hs).
  erewrite next_cons; [|simpl; by rewrite (store_all_generator _ _ _ Hs)|reflexivity].
  by rewrite reads_reads, Nat.add_1_r.
Qed.

(** ** The two ways to the result *)

Lemma get_result_loop_nil self c :
  qr_packet_generator self = GenSuspended ->
  inbox c = [] ->
  while_true get_result_body self c = (inl EOFError, disconnected (reads 1 [] c)).
Proof.
  intros Hg H. rewrite (while_true_unfold _ get_result_body_consuming).
  unfold get_result_body, bind. by rewrite Hg, (generator_next_nil _ H).
Qed.

Lemma next_nil self c :
  qr_packet_generator (pqr_base self) = GenSuspended ->
  inbox c = [] ->
  next self c = (inl EOFError, disconnected (reads 1 [] c)).
Proof.
  intros Hg H. unfold next. rewrite (while_true_unfold _ next_body_consuming).
  unfold next_body, bind. by rewrite Hg, (generator_next_nil _ H).
Qed.

Lemma iterate_loop_nil acc self c :
  qr_packet_generator (pqr_base self) = GenSuspended ->
  inbox c = [] ->
  while_true iterate_body (acc, self) c = (inl EOFError, disconnected (reads 1 [] c)).
Proof.
  intros Hg H. rewrite (while_true_unfold _ iterate_body_consuming).
  unfold iterate_body, bind. cbn [fst snd]. by rewrite (next_nil _ _ Hg H).
Qed.

(** The loop of the iteration and the loop of [get_result] read the same
    replies, fail with the same error and merge to the same data. *)
Lemma iterate_loop_follows_get_result l : forall acc self c,
  inbox c = l ->
  qr_packet_generator (pqr_base self) = GenSuspended ->
  match while_true get_result_body (pqr_base self) c with
  | (inl e, c') => while_true iterate_body (acc, self) c = (inl e, c')
  | (inr base', c') =>
      exists items totals,
        while_true iterate_body (acc, self) c =
        (inr (items, mkProgressQueryResult base' totals), c')
  end.
Proof.
  induction l as [|r rest IH]; intros acc self c Hin Hg.
  - by rewrite (get_result_loop_nil _ _ Hg Hin), (iterate_loop_nil _ _ _ Hg Hin).
  - rewrite (get_result_loop_cons _ _ _ _ Hg Hin), (iterate_loop_cons _ _ _ _ _ Hg Hin).
    destruct r as [e|p]; [reflexivity|].
    destruct p; try reflexivity;
      try (destruct (store (pqr_base self) _) as [e|s1] eqn:Hst; [reflexivity|];
           apply (IH acc (mkProgressQueryResult s1 (progress_totals self)));
           [reflexivity|simpl; by rewrite (store_generator _ _ _ Hst)]).
    + cbv zeta.
      apply (IH _ (snd (store_progress self (mkProgress rows bytes total_rows))));
        [reflexivity|exact Hg].
    + by eexists _, _.
    + by apply IH.
Qed.

(** [ProgressQueryResult.get_result] and [QueryResult.get_result] agree on
    every stream: run on the same accumulated state and the same transport,
    they raise the same error or return the same value with the same merged
    state, and leave the connection in the same state. *)
Theorem progress_get_result_agrees_with_get_result
    (self : ProgressQueryResult) (c : Connection) :
  match get_result (pqr_base self) c with
  | (inl e, c') => progress_get_result self c = (inl e, c')
  | (inr (r, base'), c') =>
      exists totals,
        progress_get_result self c = (inr (r, mkProgressQueryResult base' totals), c')
  end.
Proof.
  destruct (qr_packet_generator (pqr_base self)) eqn:Hg.
  - pose proof (iterate_loop_follows_get_result (inbox c) [] self c eq_refl Hg) as H.
    unfold get_result, bind.
    destruct (while_true get_result_body (pqr_base self) c) as [[e|base'] c'] eqn:Hloop.
    + unfold progress_get_result, bind, iterate. by rewrite H.
    + destruct H as (items & totals & H). exists totals.
      unfold progress_get_result, bind, iterate. rewrite H. cbn [fst snd pqr_base].
      unfold while_true in Hloop. apply get_result_loop_ends_finished in Hloop.
      unfold get_result, bind. by rewrite (get_result_loop_finished _ _ Hloop).
  - unfold get_result, bind. rewrite (get_result_loop_finished _ _ Hg).
    exists (progress_totals self).
    unfold progress_get_result, bind, iterate.
    rewrite (while_true_unfold _ iterate_body_consuming).
    unfold iterate_body, bind. cbn [fst snd]. rewrite (next_finished _ _ Hg).
    unfold ret. cbn [fst snd]. unfold get_result, bind.
    by rewrite (get_result_loop_finished _ _ Hg).
Qed.

(** ** [execute], [execute_with_progress] and [cancel] *)

Section MoreClientProperties.
Variable escape_params : list (string * Value) -> PyException + list (string * string).
Variable percent_format : string -> list (string * string) -> PyException + string.
Variable Block_init_error : list ColumnSpec -> list Row -> bool -> option PyException.

Lemma quiet_after_connect n query_settings c :
  quiet (S n) c = true ->
  quiet 1 c = true /\
  quiet n (set_connected true (wrote [EvForceConnect]
                                 (set_context_settings query_settings c))) = true.
Proof.
  intros H. change (S n) with (length [EvForceConnect] + n) in H.
  rewrite quiet_add in H. apply andb_prop in H as [H1 Hn]. by split.
Qed.

Lemma execute_after_connect self query params with_column_types external_tables
    query_id settings types_check columnar c :
  quiet 1 c = true ->
  execute escape_params percent_format Block_init_error self query params
          with_column_types external_tables query_id settings types_check columnar c =
  try_except
    (match is_list_or_tuple params with
     | Some data =>
         process_insert_query Block_init_error query data external_tables query_id
           (dict_update (client_settings self) (default [] settings)) types_check
     | None =>
         process_ordinary_query escape_params percent_format query params
           with_column_types external_tables query_id
           (dict_update (client_settings self) (default [] settings)) types_check columnar
     end)
    (fun e => connection_disconnect ;;; raise e)
    (set_connected true
       (wrote [EvForceConnect]
          (set_context_settings (dict_update (client_settings self) (default [] settings)) c))).
Proof.
  intros Hq. unfold execute, bind at 1, set_settings.
  unfold bind at 1, connection_force_connect, bind at 1.
  by rewrite transport_call_quiet.
Qed.

Lemma process_ordinary_query_sent query params query' with_column_types external_tables
    query_id settings types_check columnar c :
  query_to_send escape_params percent_format query params = inr query' ->
  quiet 2 c = true ->
  process_ordinary_query escape_params percent_format query params with_column_types
    external_tables query_id settings types_check columnar c =
  receive_result with_column_types false columnar
    (wrote [EvSendQuery query' query_id settings;
            EvSendExternalTables external_tables types_check] c).
Proof.
  intros Hquery Hq. unfold process_ordinary_query, bind at 1.
  assert (Hfirst : match params with
                   | ParamsNone => ret query
                   | _ => lift (substitute_params escape_params percent_format query params)
                   end c = (inr query', c)).
  { unfold query_to_send in Hquery. destruct params; unfold ret, lift;
      first [by inversion Hquery | by rewrite Hquery]. }
  rewrite Hfirst. by apply send_query_and_tables.
Qed.

Lemma process_ordinary_query_not_sent query params e with_column_types external_tables
    query_id settings types_check columnar c :
  query_to_send escape_params percent_format query params = inl e ->
  process_ordinary_query escape_params percent_format query params with_column_types
    external_tables query_id settings types_check columnar c = (inl e, c).
Proof.
  intros Hquery. unfold process_ordinary_query, bind at 1.
  unfold query_to_send in Hquery.
  destruct params; unfold ret, lift; first [discriminate Hquery | by rewrite Hquery].
Qed.

(** [execute] of a query whose stream ends normally: the settings are
    installed, the connection forced, the query sent as interpolated, then
    the external tables; the call returns what the packets up to the end of
    the stream merge to and leaves the connection connected, without a
    [disconnect()] and with the later replies unread. *)
Theorem execute_query_returns_what_the_stream_merges_to
    (self : Client) (query : string) (params : Params) (query' : string)
    (with_column_types : bool) (external_tables : option ExternalTables)
    (query_id : option string) (settings : option Settings)
    (types_check columnar : bool)
    (ps : list Packet) (rest : list Reply) (c : Connection) (merged : QueryResult) :
  is_list_or_tuple params = None ->
  query_to_send escape_params percent_format query params = inr query' ->
  quiet 3 c = true ->
  forallb flowing ps = true ->
  inbox c = replies ps ++ inr PktEndOfStream :: rest ->
  store_all (QueryResult_init GenSuspended with_column_types columnar) ps = inr merged ->
  let query_settings := dict_update (client_settings self) (default [] settings) in
  let c_end :=
    reads (S (length ps)) rest
          (query_sent query_settings query' query_id external_tables types_check c) in
  execute escape_params percent_format Block_init_error self query params
          with_column_types external_tables query_id settings types_check columnar c
  = (inr (result_of merged), c_end) /\
  connected c_end = true /\
  disconnects (trace c_end) = disconnects (trace c).
Proof.
  intros Hpath Hquery Hq Hf Hin Hs query_settings c_end.
  destruct (quiet_after_connect 2 query_settings c Hq) as [Hq1 Hq2].
  split; [|split; [reflexivity|]].
  - rewrite execute_after_connect by exact Hq1. rewrite Hpath.
    unfold try_except. fold query_settings.
    rewrite (process_ordinary_query_sent _ _ _ _ _ _ _ _ _ _ Hquery Hq2).
    unfold receive_result, bind. fold (query_sent query_settings query' query_id
                                         external_tables types_check c).
    erewrite get_result_end_of_stream; [reflexivity|exact Hf|exact Hin|reflexivity|exact Hs].
  - subst c_end. rewrite disconnects_reads. unfold query_sent. simpl.
    rewrite !disconnects_app. unfold disconnects at 2 3. simpl. lia.
Qed.

(** [execute] of a query whose stream carries an exception packet: the
    server's error is raised and [disconnect()] is called twice, by the
    handler of the packet generator and then by the handler of [execute]. *)
Theorem execute_query_disconnects_twice_on_exception_packet
    (self : Client) (query : string) (params : Params) (query' : string)
    (with_column_types : bool) (external_tables : option ExternalTables)
    (query_id : option string) (settings : option Settings)
    (types_check columnar : bool)
    (ps : list Packet) (e : PyException) (rest : list Reply) (c : Connection)
    (merged : QueryResult) :
  is_list_or_tuple params = None ->
  query_to_send escape_params percent_format query params = inr query' ->
  quiet 3 c = true ->
  forallb flowing ps = true ->
  inbox c = replies ps ++ inr (PktException e) :: rest ->
  store_all (QueryResult_init GenSuspended with_column_types columnar) ps = inr merged ->
  let query_settings := dict_update (client_settings self) (default [] settings) in
  let c_end :=
    disconnected (disconnected
      (reads (S (length ps)) rest
             (query_sent query_settings query' query_id external_tables types_check c))) in
  execute escape_params percent_format Block_init_error self query params
          with_column_types external_tables query_id settings types_check columnar c
  = (inl e, c_end) /\
  inbox c_end = rest /\
  disconnects (trace c_end) = disconnects (trace c) + 2.
Proof.
  intros Hpath Hquery Hq Hf Hin Hs query_settings c_end.
  destruct (quiet_after_connect 2 query_settings c Hq) as [Hq1 Hq2].
  split; [|split; [reflexivity|]].
  - rewrite execute_after_connect by exact Hq1. rewrite Hpath.
    unfold try_except. fold query_settings.
    rewrite (process_ordinary_query_sent _ _ _ _ _ _ _ _ _ _ Hquery Hq2).
    unfold receive_result, bind. fold (query_sent query_settings query' query_id
                                         external_tables types_check c).
    erewrite get_result_exception; [reflexivity|exact Hf|exact Hin|reflexivity|exact Hs].
  - subst c_end. rewrite !disconnects_disconnected, disconnects_reads.
    unfold query_sent. simpl.
    rewrite !disconnects_app. unfold disconnects at 2 3. simpl. lia.
Qed.

(** [execute] of a query whose parameters cannot be interpolated (wrong
    shape, or an error of [escape_params] or of the [%]): the error is
    raised with nothing sent and nothing read; the handler disconnects. *)
Theorem execute_failed_substitution_sends_nothing
    (self : Client) (query : string) (params : Params) (e : PyException)
    (with_column_types : bool) (external_tables : option ExternalTables)
    (query_id : option string) (settings : option Settings)
    (types_check columnar : bool) (c : Connection) :
  is_list_or_tuple params = None ->
  query_to_send escape_params percent_format query params = inl e ->
  quiet 1 c = true ->
  exists c_end,
    execute escape_params percent_format Block_init_error self query params
            with_column_types external_tables query_id settings types_check columnar c
    = (inl e, c_end) /\
    trace c_end = trace c ++ [EvForceConnect; EvDisconnect] /\
    inbox c_end = inbox c /\
    connected c_end = false.
Proof.
  intros Hpath Hquery Hq. eexists. split.
  - rewrite execute_after_connect by exact Hq. rewrite Hpath.
    unfold try_except.
    rewrite (process_ordinary_query_not_sent _ _ _ _ _ _ _ _ _ _ Hquery).
    reflexivity.
  - repeat split. simpl. by rewrite <- app_assoc.
Qed.

(** [execute_with_progress] sends the query and the external tables and
    returns a fresh, row-major progress result: no packet is read before the
    caller iterates. *)
Theorem execute_with_progress_reads_nothing
    (self : Client) (query : string) (params : Params) (query' : string)
    (with_column_types : bool) (external_tables : option ExternalTables)
    (query_id : option string) (settings : option Settings)
    (types_check : bool) (c : Connection) :
  query_to_send escape_params percent_format query params = inr query' ->
  quiet 3 c = true ->
  let query_settings := dict_update (client_settings self) (default [] settings) in
  let c_end := query_sent query_settings query' query_id external_tables types_check c in
  execute_with_progress escape_params percent_format self query params
    with_column_types external_tables query_id settings types_check c
  = (inr (RetProgress (ProgressQueryResult_init GenSuspended with_column_types false)),
     c_end) /\
  inbox c_end = inbox c /\
  trace c_end = trace c ++ [EvForceConnect;
                            EvSendQuery query' query_id query_settings;
                            EvSendExternalTables external_tables types_check].
Proof.
  intros Hquery Hq query_settings c_end.
  destruct (quiet_after_connect 2 query_settings c Hq) as [Hq1 Hq2].
  split; [|split; [reflexivity|]].
  - unfold execute_with_progress, bind at 1, set_settings.
    unfold bind at 1, connection_force_connect, bind at 1.
    rewrite transport_call_quiet by exact Hq1.
    unfold try_except, process_ordinary_query_with_progress, bind at 1.
    fold query_settings.
    assert (Hfirst : forall c1, match params with
                     | ParamsNone => ret query
                     | _ => lift (substitute_params escape_params percent_format query params)
                     end c1 = (inr query', c1)).
    { intros c1. unfold query_to_send in Hquery. destruct params; unfold ret, lift;
        first [by inversion Hquery | by rewrite Hquery]. }
    rewrite Hfirst. rewrite send_query_and_tables by exact Hq2. reflexivity.
  - subst c_end. unfold query_sent. simpl. by rewrite <- !app_assoc.
Qed.

End MoreClientProperties.

Section MoreInsertProperties.
Variable Block_init_error : list ColumnSpec -> list Row -> bool -> option PyException.

Lemma send_data_loop_rejected sample_block types_check bad e later good : forall c,
  quiet (length good) c = true ->
  forallb (accepted Block_init_error (blk_columns_with_types sample_block) types_check)
          good = true ->
  Block_init_error (blk_columns_with_types sample_block) bad types_check = Some e ->
  send_data_loop Block_init_error sample_block types_check (good ++ bad :: later) c =
  (inl e,
   wrote (map EvSendData (map (mkBlock (blk_columns_with_types sample_block)) good)) c).
Proof.
  induction good as [|chunk good IH]; intros c Hq Hok Hbad.
  - simpl. unfold bind, lift, Block_new. rewrite Hbad. by rewrite wrote_nil.
  - simpl in Hok. apply andb_prop in Hok as [Hchunk Hok].
    change (length (chunk :: good)) with (length [EvSendData Block_empty] + length good) in Hq.
    rewrite quiet_add in Hq. apply andb_prop in Hq as [Hq1 Hq].
    simpl. unfold bind, lift, Block_new.
    unfold accepted in Hchunk.
    destruct (Block_init_error _ chunk types_check); [discriminate|].
    unfold connection_send_data. rewrite transport_call_quiet by exact Hq1.
    rewrite IH; [by rewrite wrote_wrote|exact Hq|exact Hok|exact Hbad].
Qed.

(** A chunk that the [Block] constructor rejects stops [send_data] there:
    its error is raised, the blocks of the chunks before it have been
    written, and neither a later chunk nor the empty block is. *)
Theorem send_data_stops_at_the_rejected_chunk
    (sample_block : Block) (data : list Row) (types_check : bool) (c : Connection)
    (good : list (list Row)) (bad : list Row) (later : list (list Row))
    (e : PyException) :
  chunks data (insert_block_size c) = good ++ bad :: later ->
  quiet (length good) c = true ->
  forallb (accepted Block_init_error (blk_columns_with_types sample_block) types_check)
          good = true ->
  Block_init_error (blk_columns_with_types sample_block) bad types_check = Some e ->
  let blocks := map (mkBlock (blk_columns_with_types sample_block)) good in
  let c_end := wrote (map EvSendData blocks) c in
  send_data Block_init_error sample_block data types_check c = (inl e, c_end) /\
  sent_blocks (trace c_end) = sent_blocks (trace c) ++ blocks.
Proof.
  intros Hchunks Hq Hok Hbad blocks c_end. split.
  - unfold send_data, bind. rewrite Hchunks.
    by rewrite (send_data_loop_rejected _ _ _ _ _ _ _ Hq Hok Hbad).
  - subst c_end. simpl. by rewrite sent_blocks_app, sent_blocks_send.
Qed.

(** An insert on a transport whose writes succeed, with rows that the
    [Block] constructor accepts: the statement and the tables are sent, the
    sample block read, one block written for each chunk and then the empty
    block, and only then the acknowledgement read; an exception it carries
    is raised after all the blocks have been written. *)
Theorem insert_writes_every_block_before_the_acknowledgement
    (query_without_data : string) (data : list Row)
    (external_tables : option ExternalTables) (query_id : option string)
    (settings : Settings) (types_check : bool)
    (sample_block : Block) (ack : Reply) (rest : list Reply) (c : Connection) :
  quiet (3 + length (chunks data (insert_block_size c))) c = true ->
  inbox c = inr (PktData sample_block) :: ack :: rest ->
  forallb (accepted Block_init_error (blk_columns_with_types sample_block) types_check)
          (chunks data (insert_block_size c)) = true ->
  let blocks := map (mkBlock (blk_columns_with_types sample_block))
                    (chunks data (insert_block_size c)) in
  exists c_end,
    process_insert_query Block_init_error query_without_data data external_tables
                         query_id settings types_check c =
      (match ack with
       | inl e => inl e
       | inr packet =>
           match packet_exception packet with
           | Some e => inl e
           | None => inr RetNone
           end
       end, c_end) /\
    trace c_end =
      trace c ++ [EvSendQuery query_without_data query_id settings;
                  EvSendExternalTables external_tables types_check;
                  EvReceivePacket]
              ++ map EvSendData (blocks ++ [Block_empty]) ++ [EvReceivePacket] /\
    inbox c_end = rest.
Proof.
  intros Hq Hin Hok blocks.
  set (sent := [EvSendQuery query_without_data query_id settings;
                EvSendExternalTables external_tables types_check]).
  change (3 + length (chunks data (insert_block_size c)))
    with (length sent + S (length (chunks data (insert_block_size c)))) in Hq.
  rewrite quiet_add in Hq. apply andb_prop in Hq as [Hq2 Hq1].
  set (c1 := reads 1 (ack :: rest) (wrote sent c)).
  set (c2 := wrote (map EvSendData (blocks ++ [Block_empty])) c1).
  exists (reads 1 rest c2). split; [|split; [|reflexivity]].
  - unfold process_insert_query. rewrite send_query_and_tables by exact Hq2.
    unfold bind at 1. erewrite receive_sample_block_cons by exact Hin.
    fold sent. fold c1. cbn [packet_block].
    unfold bind at 1.
    rewrite (send_data_quiet Block_init_error sample_block data types_check c1)
      by (exact Hq1 || exact Hok).
    unfold bind. change (insert_block_size c1) with (insert_block_size c).
    fold blocks. fold c2.
    rewrite (connection_receive_packet_cons ack rest c2) by reflexivity.
    destruct ack as [e|packet]; [reflexivity|].
    by destruct (packet_exception packet).
  - subst c2 c1 sent. cbn [trace reads wrote replicate]. by rewrite <- !app_assoc.
Qed.

End MoreInsertProperties.

(** [cancel] sends the cancel message and then reads the stream to its end:
    it returns the rows of the packets that were still to come, row-major
    (with the first schema that names a column when asked for), and leaves
    the replies after the end of the stream unread. *)
Theorem cancel_drains_the_stream
    (with_column_types : bool) (ps : list Packet) (rest : list Reply) (c : Connection) :
  quiet 1 c = true ->
  forallb flowing ps = true ->
  inbox c = replies ps ++ inr PktEndOfStream :: rest ->
  cancel with_column_types c =
  (inr (if with_column_types then RetDataColumns (rows_of ps) (first_schema ps)
        else RetData (rows_of ps)),
   reads (S (length ps)) rest (wrote [EvSendCancel] c)).
Proof.
  intros Hq Hf Hin. unfold cancel, bind at 1, connection_send_cancel.
  rewrite transport_call_quiet by exact Hq.
  unfold receive_result, bind.
  erewrite get_result_end_of_stream;
    [|exact Hf|exact Hin|reflexivity|apply store_all_fresh_row_major].
  by destruct with_column_types.
Qed.

(** ** What the calls leave alone *)

Section Frame.
Context {X : Type}.
Variable f : Connection -> X.
Hypothesis f_log : forall ev c, f (log ev c) = f c.
Hypothesis f_set_faults : forall v c, f (set_faults v c) = f c.
Hypothesis f_set_inbox : forall v c, f (set_inbox v c) = f c.
Hypothesis f_set_connected : forall v c, f (set_connected v c) = f c.

Lemma keeps_ret {A} (a : A) : keeps f (ret a).
Proof. by intros c. Qed.

Lemma keeps_raise {A} e : keeps f (@raise A e).
Proof. by intros c. Qed.

Lemma keeps_lift {A} (r : PyException + A) : keeps f (lift r).
Proof. by intros c. Qed.

Lemma keeps_bind {A B} (m : M A) (k : A -> M B) :
  keeps f m -> (forall a, keeps f (k a)) -> keeps f (bind m k).
Proof.
  intros Hm Hk c. unfold bind. specialize (Hm c).
  destruct (m c) as [[e|a] c1]; simpl in *; [exact Hm|]. by rewrite Hk.
Qed.

Lemma keeps_try_except {A} (m : M A) (h : PyException -> M A) :
  keeps f m -> (forall e, keeps f (h e)) -> keeps f (try_except m h).
Proof.
  intros Hm Hh c. unfold try_except. specialize (Hm c).
  destruct (m c) as [[e|a] c1]; simpl in *; [|exact Hm]. by rewrite Hh.
Qed.

Lemma keeps_repeat_until {S R} (body : S -> M (Step S R)) fuel :
  (forall s, keeps f (body s)) -> forall s, keeps f (repeat_until fuel body s).
Proof.
  intros Hb. induction fuel as [|fuel IH]; intros s c; [reflexivity|].
  simpl. specialize (Hb s c).
  destruct (body s c) as [[e|[s'|r]] c1]; simpl in *; try exact Hb.
  by rewrite IH.
Qed.

Lemma keeps_while_true {S R} (body : S -> M (Step S R)) :
  (forall s, keeps f (body s)) -> forall s, keeps f (while_true body s).
Proof. intros Hb s c. unfold while_true. by apply keeps_repeat_until. Qed.

Lemma keeps_transport_call ev : keeps f (transport_call ev).
Proof.
  intros c. unfold transport_call. simpl.
  destruct (faults c) as [|[e|] fs]; simpl; by rewrite ?f_set_faults, f_log.
Qed.

Lemma keeps_disconnect : keeps f connection_disconnect.
Proof. intros c. unfold connection_disconnect. simpl. by rewrite f_set_connected, f_log. Qed.

Lemma keeps_force_connect : keeps f connection_force_connect.
Proof.
  apply keeps_bind; [apply keeps_transport_call|].
  intros _ c. simpl. apply f_set_connected.
Qed.

Lemma keeps_connection_receive_packet : keeps f connection_receive_packet.
Proof.
  intros c. unfold connection_receive_packet. simpl.
  destruct (inbox c) as [|[e|p] rest]; simpl; by rewrite ?f_set_inbox, f_log.
Qed.

Lemma keeps_receive_packet : keeps f receive_packet.
Proof.
  apply keeps_bind; [apply keeps_connection_receive_packet|].
  intros []; first [apply keeps_ret | apply keeps_raise].
Qed.

Lemma keeps_generator_next g : keeps f (generator_next g).
Proof.
  destruct g; [|apply keeps_ret].
  apply keeps_bind.
  - apply keeps_while_true. intros []. unfold packet_generator_body.
    apply keeps_try_except.
    + apply keeps_bind; [apply keeps_receive_packet|]. intros []; apply keeps_ret.
    + intros e. apply keeps_bind; [apply keeps_disconnect|]. intros _. apply keeps_raise.
  - intros []; apply keeps_ret.
Qed.

Lemma keeps_get_result self : keeps f (get_result self).
Proof.
  apply keeps_bind; [|intros; apply keeps_ret].
  apply keeps_while_true. clear self. intros self.
  apply keeps_bind; [apply keeps_generator_next|].
  intros [[p|] g]; simpl; [|apply keeps_ret].
  apply keeps_bind; [apply keeps_lift|]. intros; apply keeps_ret.
Qed.

Lemma keeps_receive_result with_column_types progress columnar :
  keeps f (receive_result with_column_types progress columnar).
Proof.
  unfold receive_result. destruct progress; [apply keeps_ret|].
  apply keeps_bind; [apply keeps_get_result|]. intros; apply keeps_ret.
Qed.

Lemma keeps_send_data_loop Block_init_error sample_block types_check todo :
  keeps f (send_data_loop Block_init_error sample_block types_check todo).
Proof.
  induction todo as [|chunk todo IH]; [apply keeps_ret|]. simpl.
  apply keeps_bind; [apply keeps_lift|]. intros block.
  apply keeps_bind; [apply keeps_transport_call|]. intros _. exact IH.
Qed.

Lemma keeps_process_insert_query Block_init_error query data external_tables query_id
    settings types_check :
  keeps f (process_insert_query Block_init_error query data external_tables query_id
                                settings types_check).
Proof.
  unfold process_insert_query.
  apply keeps_bind; [apply keeps_transport_call|]. intros _.
  apply keeps_bind; [apply keeps_transport_call|]. intros _.
  apply keeps_bind.
  - apply keeps_bind; [apply keeps_connection_receive_packet|].
    intros []; first [apply keeps_ret | apply keeps_raise].
  - intros [sample_block|]; [|apply keeps_ret].
    apply keeps_bind.
    + unfold send_data. apply keeps_bind; [by intros c|]. intros size.
      apply keeps_bind; [apply keeps_send_data_loop|]. intros _.
      apply keeps_transport_call.
    + intros _. apply keeps_bind; [apply keeps_connection_receive_packet|].
      intros packet. destruct (packet_exception packet);
        [apply keeps_raise|apply keeps_ret].
Qed.

Lemma keeps_process_ordinary_query escape_params percent_format query params
    with_column_types external_tables query_id settings types_check columnar :
  keeps f (process_ordinary_query escape_params percent_format query params
             with_column_types external_tables query_id settings types_check columnar).
Proof.
  unfold process_ordinary_query.
  apply keeps_bind; [destruct params; first [apply keeps_ret | apply keeps_lift]|].
  intros q. apply keeps_bind; [apply keeps_transport_call|]. intros _.
  apply keeps_bind; [apply keeps_transport_call|]. intros _.
  apply keeps_receive_result.
Qed.

(** What [execute] does after it has installed the settings. *)
Lemma keeps_execute_tail escape_params percent_format Block_init_error query params
    with_column_types external_tables query_id query_settings types_check columnar :
  keeps f
    (connection_force_connect ;;;
     try_except
       (match is_list_or_tuple params with
        | Some data =>
            process_insert_query Block_init_error query data external_tables query_id
                                 query_settings types_check
        | None =>
            process_ordinary_query escape_params percent_format query params
              with_column_types external_tables query_id query_settings
              types_check columnar
        end)
       (fun e => connection_disconnect ;;; raise e)).
Proof.
  apply keeps_bind; [apply keeps_force_connect|]. intros _.
  apply keeps_try_except.
  - destruct (is_list_or_tuple params);
      [apply keeps_process_insert_query|apply keeps_process_ordinary_query].
  - intros e. apply keeps_bind; [apply keeps_disconnect|]. intros _. apply keeps_raise.
Qed.

End Frame.

Lemma dict_get_set k k' v d :
  dict_get k (dict_set k' v d) = if String.eqb k k' then Some v else dict_get k d.
Proof.
  induction d as [|[k1 v1] d IH]; simpl.
  - reflexivity.
  - destruct (String.eqb_spec k' k1) as [->|Hne]; simpl.
    + by destruct (String.eqb k k1).
    + destruct (String.eqb_spec k k1) as [->|Hne1].
      * destruct (String.eqb_spec k1 k'); [congruence|done].
      * exact IH.
Qed.

Lemma dict_get_app k d1 d2 :
  dict_get k (d1 ++ d2) =
  match dict_get k d1 with Some v => Some v | None => dict_get k d2 end.
Proof.
  induction d1 as [|[k1 v1] d1 IH]; simpl; [reflexivity|].
  by destruct (String.eqb k k1).
Qed.

Lemma dict_get_update k other : forall d,
  dict_get k (dict_update d other) =
  match last_assigned k other with Some v => Some v | None => dict_get k d end.
Proof.
  unfold dict_update, last_assigned.
  induction other as [|[k1 v1] other IH]; intros d; simpl; [reflexivity|].
  rewrite IH, dict_get_app, dict_get_set. simpl.
  destruct (dict_get k (rev other)); [reflexivity|].
  by destruct (String.eqb k k1).
Qed.

(** After [execute], whether it returned or raised, the connection's context
    holds the settings of the call: for each key the value given with the
    call if there is one, and the client's own otherwise. The insert block
    size is left as it was. *)
Theorem execute_leaves_the_call_settings_installed
    (escape_params : list (string * Value) -> PyException + list (string * string))
    (percent_format : string -> list (string * string) -> PyException + string)
    (Block_init_error : list ColumnSpec -> list Row -> bool -> option PyException)
    (self : Client) (query : string) (params : Params) (with_column_types : bool)
    (external_tables : option ExternalTables) (query_id : option string)
    (settings : option Settings) (types_check columnar : bool) (c : Connection)
    (k : string) :
  let c_end :=
    snd (execute escape_params percent_format Block_init_error self query params
                 with_column_types external_tables query_id settings types_check
                 columnar c) in
  dict_get k (context_settings c_end) =
    match last_assigned k (default [] settings) with
    | Some v => Some v
    | None => dict_get k (client_settings self)
    end /\
  insert_block_size c_end = insert_block_size c.
Proof.
  intros c_end. subst c_end.
  split; unfold execute, bind at 1, set_settings; cbv beta iota.
  - rewrite (keeps_execute_tail context_settings) by done.
    simpl. apply dict_get_update.
  - by rewrite (keeps_execute_tail insert_block_size).
Qed.

(** ** The rest of [client.py] on the sample data *)

Lemma store_columnar_by_column_count_witness :
  store ex_one_column (PktData ex_block1) = inl (IndexError "list index out of range") /\
  store ex_one_column (PktData ex_single) = inr (set_qr_data [[VInt 0; VInt 0]] ex_one_column).
Proof.
  split.
  - apply (store_columnar_by_column_count ex_one_column (PktData ex_block1) ex_block1);
      reflexivity.
  - apply (store_columnar_by_column_count ex_one_column (PktData ex_single) ex_single);
      reflexivity.
Defined.

Lemma transport_error_witness :
  get_result ex_fresh ex_stream_broken =
    (inl (NetworkError "Connection reset"),
     disconnected (reads 7 ex_tail ex_stream_broken)) /\
  iterate ex_progress_fresh ex_stream_broken =
    (inl (NetworkError "Connection reset"),
     disconnected (reads 7 ex_tail ex_stream_broken)) /\
  disconnects (trace (disconnected (reads 7 ex_tail ex_stream_broken))) =
    S (disconnects (trace ex_stream_broken)).
Proof.
  apply (transport_error_aborts_and_disconnects_once
           ex_packets (NetworkError "Connection reset") ex_tail ex_stream_broken
           ex_fresh ex_merged ex_progress_fresh ex_merged); reflexivity.
Defined.

Lemma merge_error_witness :
  store_all ex_fresh_columnar [PktData ex_single] = inr ex_one_column /\
  get_result ex_fresh_columnar ex_stream_widening =
    (inl (IndexError "list index out of range"), reads 2 ex_tail ex_stream_widening) /\
  connected (reads 2 ex_tail ex_stream_widening) = connected ex_stream_widening /\
  disconnects (trace (reads 2 ex_tail ex_stream_widening)) =
    disconnects (trace ex_stream_widening).
Proof.
  split; [reflexivity|].
  apply (merge_error_does_not_disconnect
           [PktData ex_single] (PktData ex_block1) (IndexError "list index out of range")
           ex_tail ex_stream_widening ex_fresh_columnar ex_one_column); reflexivity.
Defined.

Lemma get_result_again_witness :
  get_result ex_fresh ex_stream_end =
    (inr (result_of ex_merged, set_qr_packet_generator GenFinished ex_merged),
     reads 7 ex_tail ex_stream_end) /\
  qr_packet_generator (set_qr_packet_generator GenFinished ex_merged) = GenFinished /\
  get_result (set_qr_packet_generator GenFinished ex_merged) ex_stream_exception =
    (inr (result_of ex_merged, set_qr_packet_generator GenFinished ex_merged),
     ex_stream_exception).
Proof.
  assert (H : get_result ex_fresh ex_stream_end =
              (inr (result_of ex_merged, set_qr_packet_generator GenFinished ex_merged),
               reads 7 ex_tail ex_stream_end)) by (vm_compute; reflexivity).
  split; [exact H|].
  exact (get_result_again_reads_nothing ex_fresh ex_stream_end _ _ _ ex_stream_exception H).
Defined.

Lemma exhausted_iterator_witness :
  iterate ex_progress_fresh ex_stream_end =
    (inr ([(2, 3); (3, 3)]%Z, ex_progress_done), reads 7 ex_tail ex_stream_end) /\
  next ex_progress_done ex_stream_exception = (inr (None, ex_progress_done), ex_stream_exception) /\
  iterate ex_progress_done ex_stream_exception =
    (inr ([], ex_progress_done), ex_stream_exception).
Proof.
  assert (H : iterate ex_progress_fresh ex_stream_end =
              (inr ([(2, 3); (3, 3)]%Z, ex_progress_done), reads 7 ex_tail ex_stream_end))
    by (vm_compute; reflexivity).
  split; [exact H|].
  exact (exhausted_iterator_stays_exhausted ex_progress_fresh ex_stream_end _ _ _
           ex_stream_exception H).
Defined.

Lemma next_reads_up_to_the_progress_packet_witness :
  next ex_progress_fresh ex_stream_end =
    (inr (Some (2, 3)%Z, mkProgressQueryResult ex_with_schema (mkProgress 2 20 3)),
     reads 2 ex_after_first_progress ex_stream_end).
Proof.
  apply (next_reads_up_to_the_progress_packet [PktData ex_header] 2 20 3
           ex_after_first_progress ex_stream_end ex_progress_fresh ex_with_schema);
    reflexivity.
Defined.

Lemma execute_query_witness :
  fst (execute ex_escape_params ex_percent_format ex_Block_init_error ex_client
               "SELECT id, name FROM t" ParamsNone true None None None false false
               ex_stream_end) =
  inr (RetDataColumns [[VInt 1; VStr "a"]; [VInt 2; VStr "b"]; [VInt 3; VStr "c"]]
                      ex_columns).
Proof.
  destruct (execute_query_returns_what_the_stream_merges_to
              ex_escape_params ex_percent_format ex_Block_init_error ex_client
              "SELECT id, name FROM t" ParamsNone "SELECT id, name FROM t"
              true None None None false false ex_packets ex_tail ex_stream_end ex_merged)
    as (Hrun & _); [reflexivity..|].
  by rewrite Hrun.
Defined.

Lemma execute_query_disconnects_twice_witness :
  fst ex_failed_query = inl ex_error /\
  disconnects (trace (snd ex_failed_query)) = disconnects (trace ex_stream_exception) + 2.
Proof.
  destruct (execute_query_disconnects_twice_on_exception_packet
              ex_escape_params ex_percent_format ex_Block_init_error ex_client
              "SELECT id, name FROM t" ParamsNone "SELECT id, name FROM t"
              true None None None false false ex_packets ex_error ex_tail
              ex_stream_exception ex_merged)
    as (Hrun & _ & Hcount); [reflexivity..|].
  unfold ex_failed_query. rewrite Hrun. split; [reflexivity|exact Hcount].
Defined.

Lemma execute_failed_substitution_witness :
  exists c_end,
    execute ex_escape_params ex_percent_format_strict ex_Block_init_error ex_client
            "SELECT %(x)s" (ParamsDict []) false None None None false false
            (ex_connection [])
    = (inl (KeyError "x"), c_end) /\
    trace c_end = trace (ex_connection []) ++ [EvForceConnect; EvDisconnect] /\
    inbox c_end = inbox (ex_connection []) /\
    connected c_end = false.
Proof.
  apply (execute_failed_substitution_sends_nothing
           ex_escape_params ex_percent_format_strict ex_Block_init_error ex_client
           "SELECT %(x)s" (ParamsDict []) (KeyError "x") false None None None false false
           (ex_connection [])); reflexivity.
Defined.

Lemma execute_with_progress_witness :
  fst (execute_with_progress ex_escape_params ex_percent_format ex_client
         "SELECT id, name FROM t" ParamsNone true None None None false ex_stream_end) =
    inr (RetProgress ex_progress_fresh) /\
  inbox (snd (execute_with_progress ex_escape_params ex_percent_format ex_client
                "SELECT id, name FROM t" ParamsNone true None None None false
                ex_stream_end)) = inbox ex_stream_end.
Proof.
  destruct (execute_with_progress_reads_nothing
              ex_escape_params ex_percent_format ex_client
              "SELECT id, name FROM t" ParamsNone "SELECT id, name FROM t"
              true None None None false ex_stream_end)
    as (Hrun & Hinbox & _); [reflexivity..|].
  rewrite Hrun. split; [reflexivity|exact Hinbox].
Defined.

Lemma send_data_stops_witness :
  sent_blocks
    (trace (snd (send_data ex_Block_init_error_strict ex_header ex_rows false
                           (ex_connection [])))) =
    [mkBlock ex_columns [[VInt 1]; [VInt 2]]] /\
  fst (send_data ex_Block_init_error_strict ex_header ex_rows false (ex_connection [])) =
    inl (TypeError "Expected String").
Proof.
  destruct (send_data_stops_at_the_rejected_chunk ex_Block_init_error_strict
              ex_header ex_rows false (ex_connection [])
              [[[VInt 1]; [VInt 2]]] [[VInt 3]; [VInt 4]] [[[VInt 5]]]
              (TypeError "Expected String"))
    as (Hrun & Hsent); [reflexivity..|].
  rewrite Hrun. split; [exact Hsent|reflexivity].
Defined.

Lemma insert_writes_every_block_witness :
  exists c_end,
    process_insert_query ex_Block_init_error "INSERT INTO t VALUES" ex_rows None None []
                         false ex_insert_accepted = (inr RetNone, c_end) /\
    trace c_end =
      trace ex_insert_accepted ++
      [EvSendQuery "INSERT INTO t VALUES" None []; EvSendExternalTables None false;
       EvReceivePacket] ++
      map EvSendData
          (map (mkBlock ex_columns) (chunks ex_rows 2) ++ [Block_empty]) ++
      [EvReceivePacket] /\
    inbox c_end = [].
Proof.
  apply (insert_writes_every_block_before_the_acknowledgement ex_Block_init_error
           "INSERT INTO t VALUES" ex_rows None None [] false ex_header
           (inr PktEndOfStream) [] ex_insert_accepted); reflexivity.
Defined.

Lemma cancel_witness :
  cancel true ex_stream_end =
    (inr (RetDataColumns (rows_of ex_packets) (first_schema ex_packets)),
     reads 7 ex_tail (wrote [EvSendCancel] ex_stream_end)).
Proof.
  apply (cancel_drains_the_stream true ex_packets ex_tail ex_stream_end); reflexivity.
Defined.
